(** * plot_speedup.py: the benchmark report script

    A shallow embedding of [plot_speedup.py].  The script loads two CSV
    tables with pandas, prints descriptive statistics, draws a 2x2 figure
    and saves it.

    - Python floats are IEEE binary64: the script runs on Rocq's primitive
      [float], whose operations are the same binary64 operations, and the
      statements about computed values are statements about these rounded
      values.  Where a statement speaks of a tolerance, the bound is proved
      from the specification of the binary64 operations ([SpecFloat]).
    - The pandas/numpy reductions the script calls ([std], [median],
      [quantile], [corr], [sum] and [mean] of a comparison) are written once,
      over an arithmetic interface [Arith].  The script runs on the binary64
      instance.  A second instance, the reals extended with a not-a-number
      value, has no rounding and no overflow: it is an idealisation, and it
      only appears where a statement about binary64 is repeated for it.
    - [print], [savefig] and exceptions are an explicit state-and-error
      monad [Script]: what was printed before an exception stays printed.
    - [pd.read_csv] is taken at the level of the table it returns; the
      matplotlib and seaborn calls are taken to succeed, and the figure is
      the data and the texts the script hands to them.
    - numpy does not fix the order of the additions inside a sum; [f_sum]
      adds from left to right, so a binary64 result can differ from
      pandas' in the last bit. *)

From Stdlib Require Import ZArith QArith Qround List String Ascii Bool Lia.
From Stdlib Require Import Reals Lra Qreals.
From Stdlib Require Import DecimalString Decimal.
From Stdlib Require DecimalPos DecimalZ.
From Stdlib Require Import PrimFloat SpecFloat FloatOps FloatAxioms.
From Stdlib Require Uint63.
From stdpp Require Import base option list sorting gmap strings.

Local Open Scope Z_scope.
Set Warnings "-inexact-float".

(** ** Arithmetic interface *)

Class Arith (F : Type) := {
  f_nan : F;
  f_of_Z : Z -> F;
  f_add : F -> F -> F;
  f_sub : F -> F -> F;
  f_mul : F -> F -> F;
  f_div : F -> F -> F;
  f_sqrt : F -> F;
  (** [f_ltb x y] is Python's [x < y]: false when an operand is NaN. *)
  f_ltb : F -> F -> bool;
  f_isnan : F -> bool
}.

(** An integer as a binary64 value (exact below 2^53; row counts are). *)
Definition float_of_Z (z : Z) : float :=
  if z <? 0 then PrimFloat.opp (PrimFloat.of_uint63 (Uint63.of_Z (- z)))
  else PrimFloat.of_uint63 (Uint63.of_Z z).

#[export] Instance float_arith : Arith float := {|
  f_nan := PrimFloat.nan;
  f_of_Z := float_of_Z;
  f_add := PrimFloat.add;
  f_sub := PrimFloat.sub;
  f_mul := PrimFloat.mul;
  f_div := PrimFloat.div;
  f_sqrt := PrimFloat.sqrt;
  f_ltb := PrimFloat.ltb;
  f_isnan := PrimFloat.is_nan
|}.

(** The reals with a not-a-number value: [None] stands for NaN (and for
    the infinities a division by zero gives in binary64).  There is no
    rounding and no overflow here, so the reductions at this instance are
    not what the script computes. *)
Definition xreal : Type := option R.

Definition xr_lift2 (op : R -> R -> R) (x y : xreal) : xreal :=
  match x, y with
  | Some a, Some b => Some (op a b)
  | _, _ => None
  end.

Definition xr_div (x y : xreal) : xreal :=
  match x, y with
  | Some a, Some b => if Req_dec_T b 0 then None else Some (a / b)%R
  | _, _ => None
  end.

Definition xr_sqrt (x : xreal) : xreal :=
  match x with
  | Some a => if Rlt_dec a 0 then None else Some (R_sqrt.sqrt a)
  | None => None
  end.

Definition xr_ltb (x y : xreal) : bool :=
  match x, y with
  | Some a, Some b => if Rlt_dec a b then true else false
  | _, _ => false
  end.

Definition xr_isnan (x : xreal) : bool :=
  match x with Some _ => false | None => true end.

#[export] Instance xreal_arith : Arith xreal := {|
  f_nan := None;
  f_of_Z := fun z => Some (IZR z);
  f_add := xr_lift2 Rplus;
  f_sub := xr_lift2 Rminus;
  f_mul := xr_lift2 Rmult;
  f_div := xr_div;
  f_sqrt := xr_sqrt;
  f_ltb := xr_ltb;
  f_isnan := xr_isnan
|}.

(** ** The pandas and numpy reductions the script calls *)

Section Reductions.
Context {F : Type} `{Arith F}.

(** [notna] mask applied: pandas reductions skip NaN entries. *)
Definition dropna (xs : list F) : list F :=
  filter (fun x => negb (f_isnan x) = true) xs.

Definition f_sum (xs : list F) : F := fold_left f_add xs (f_of_Z 0).

Definition count (xs : list F) : Z := Z.of_nat (length xs).

(** [np.mean]: sum over count. *)
Definition f_mean (xs : list F) : F := f_div (f_sum xs) (f_of_Z (count xs)).

(** [nanops.nanvar]: when [count <= ddof] both the count and the divisor
    are set to NaN, and the arithmetic goes on with them. *)
Definition nanvar (ddof : Z) (xs : list F) : F :=
  let values := dropna xs in
  let n := count values in
  let '(cnt, d) :=
    if n <=? ddof then (f_nan, f_nan) else (f_of_Z n, f_of_Z (n - ddof)) in
  let avg := f_div (f_sum values) cnt in
  let sqr := map (fun v => let e := f_sub avg v in f_mul e e) values in
  f_div (f_sum sqr) d.

(** [Series.std()]: [ddof=1], square root of [nanvar]. *)
Definition std (xs : list F) : F := f_sqrt (nanvar 1 xs).

Fixpoint insert_sorted (x : F) (l : list F) : list F :=
  match l with
  | [] => [x]
  | y :: l' => if f_ltb y x then y :: insert_sorted x l' else x :: y :: l'
  end.

Definition sort_values (xs : list F) : list F :=
  fold_right insert_sorted [] xs.

(** [Series.median()]: NaN skipped, the middle of the sorted values, the
    mean of the two middle ones for an even count, NaN for no value. *)
Definition median (xs : list F) : F :=
  let a := sort_values (dropna xs) in
  let n := length a in
  match n with
  | O => f_nan
  | _ =>
    if Nat.odd n then nth (n / 2)%nat a f_nan
    else f_div (f_add (nth (n / 2 - 1)%nat a f_nan) (nth (n / 2)%nat a f_nan))
               (f_of_Z 2)
  end.

(** numpy's [_lerp]. *)
Definition lerp (a b t : F) : F :=
  let diff_b_a := f_sub b a in
  if f_ltb t (f_div (f_of_Z 1) (f_of_Z 2))
  then f_add a (f_mul diff_b_a t)
  else f_sub b (f_mul diff_b_a (f_sub (f_of_Z 1) t)).

(** [Series.quantile(q)] for [q = qn/qd], linear interpolation: the
    virtual index [(n-1)*q] splits into its floor and the fraction
    [gamma]; the script only asks for [q = 1/4] and [q = 3/4], for which
    index and fraction are exact in binary64. *)
Definition quantile (qn qd : Z) (xs : list F) : F :=
  let a := sort_values (dropna xs) in
  let n := count a in
  if n =? 0 then f_nan
  else
    let v := (n - 1) * qn in
    let previous := Z.to_nat (v / qd) in
    let next := Nat.min (S previous) (length a - 1) in
    let gamma := f_div (f_of_Z (v mod qd)) (f_of_Z qd) in
    lerp (nth previous a f_nan) (nth next a f_nan) gamma.

(** [s > thr] as a boolean Series. *)
Definition gt_mask (thr : F) (xs : list F) : list bool :=
  map (fun x => f_ltb thr x) xs.

(** [.sum()] of a boolean Series: the number of [True]. *)
Definition bool_sum (m : list bool) : Z :=
  Z.of_nat (length (filter (fun b => b = true) m)).

(** [.mean()] of a boolean Series: the sum, as a float, over the length. *)
Definition bool_mean (m : list bool) : F :=
  f_div (f_of_Z (bool_sum m)) (f_of_Z (Z.of_nat (length m))).

(** [mask.mean()*100]: the share of [True], in percent. *)
Definition percentage (m : list bool) : F :=
  f_mul (bool_mean m) (f_of_Z 100).

Definition dot (xs ys : list F) : F :=
  f_sum (map (fun p => f_mul (fst p) (snd p)) (zip xs ys)).

(** One entry of [np.cov] for two rows of the same length ([ddof=1]). *)
Definition cov (xs ys : list F) : F :=
  let fact := if count xs - 1 <=? 0 then f_of_Z 0 else f_of_Z (count xs - 1) in
  let dx := map (fun x => f_sub x (f_mean xs)) xs in
  let dy := map (fun y => f_sub y (f_mean ys)) ys in
  f_mul (dot dx dy) (f_div (f_of_Z 1) fact).

Definition clip (x : F) : F :=
  if f_ltb x (f_of_Z (-1)) then f_of_Z (-1)
  else if f_ltb (f_of_Z 1) x then f_of_Z 1 else x.

(** [np.corrcoef(a, b)[0, 1]]. *)
Definition corrcoef (xs ys : list F) : F :=
  clip (f_div (f_div (cov xs ys) (f_sqrt (cov xs xs))) (f_sqrt (cov ys ys))).

(** [Series.corr(other)]: Pearson, rows with a NaN on either side
    dropped, NaN when no row is left. *)
Definition corr (xs ys : list F) : F :=
  let valid :=
    filter (fun p => negb (f_isnan (fst p)) && negb (f_isnan (snd p)) = true)
           (zip xs ys) in
  match valid with
  | [] => f_nan
  | _ => corrcoef (map fst valid) (map snd valid)
  end.
End Reductions.

(** ** Python values: [int()], [str()] and format specifications *)

Inductive exn :=
  | OSError (path : string)      (* file missing or unreadable *)
  | KeyError (key : string)
  | ValueError (msg : string)
  | OverflowError (msg : string).

(** The magnitude of a finite binary64 value [m * 2^e] as a fraction. *)
Definition mant_frac (m : positive) (e : Z) : Z * Z :=
  if 0 <=? e then (Z.pos m * 2 ^ e, 1) else (Z.pos m, 2 ^ (- e)).

(** The exact rational value of a binary64 number (0 for the non-finite). *)
Definition float_to_Q (x : float) : Q :=
  match Prim2SF x with
  | S754_finite s m e =>
      let '(n, d) := mant_frac m e in
      Qmake (if s then - n else n) (Z.to_pos d)
  | _ => 0%Q
  end.

Definition is_finite (x : float) : bool :=
  match Prim2SF x with
  | S754_finite _ _ _ | S754_zero _ => true
  | _ => false
  end.

(** [int(x)] on a float: truncation toward zero; NaN and the infinities
    raise. *)
Definition py_int (x : float) : exn + Z :=
  match Prim2SF x with
  | S754_zero _ => inr 0
  | S754_finite s m e =>
      let '(n, d) := mant_frac m e in
      inr (if s then - (n / d) else n / d)
  | S754_nan => inl (ValueError "cannot convert float NaN to integer")
  | S754_infinity _ =>
      inl (OverflowError "cannot convert float infinity to integer")
  end.

(** [str(n)] of an integer. *)
Definition str_int (n : Z) : string := NilZero.string_of_int (Z.to_int n).

Definition digit_char (d : Z) : ascii :=
  ascii_of_nat (48 + Z.to_nat (d mod 10)).

(** The last [k] decimal digits of [n], most significant first. *)
Fixpoint digits_fixed (k : nat) (n : Z) : string :=
  match k with
  | O => EmptyString
  | S k' => digits_fixed k' (n / 10) +:+ String (digit_char n) EmptyString
  end.

(** Round the fraction [n/d] to the nearest integer, ties to even. *)
Definition round_half_even (n d : Z) : Z :=
  let q := n / d in
  let r := n mod d in
  if 2 * r <? d then q
  else if d <? 2 * r then q + 1
  else if Z.even q then q else q + 1.

(** [n/d * 10^k] rounded to an integer. *)
Definition scaled (k : Z) (n d : Z) : Z :=
  if 0 <=? k then round_half_even (n * 10 ^ k) d
  else round_half_even n (d * 10 ^ (- k)).

Definition sign_str (s : bool) : string := if s then "-" else "".

(** A scaled integer [v] shown with [prec] digits after the point. *)
Definition fixed_str (prec : nat) (v : Z) : string :=
  str_int (v / 10 ^ Z.of_nat prec) +:+
  match prec with
  | O => ""
  | _ => "." +:+ digits_fixed prec v
  end.

(** The format specification [.{prec}f]. *)
Definition format_f (prec : nat) (x : float) : string :=
  match Prim2SF x with
  | S754_nan => "nan"
  | S754_infinity s => sign_str s +:+ "inf"
  | S754_zero s => sign_str s +:+ fixed_str prec 0
  | S754_finite s m e =>
      let '(n, d) := mant_frac m e in
      sign_str s +:+ fixed_str prec (scaled (Z.of_nat prec) n d)
  end.

Fixpoint ilog10_fuel (fuel : nat) (n : Z) : Z :=
  match fuel with
  | O => 0
  | S k => if n <? 10 then 0 else 1 + ilog10_fuel k (n / 10)
  end.

(** Number of decimal digits of [n > 0], minus one. *)
Definition ilog10 (n : Z) : Z := ilog10_fuel (S (Z.to_nat (Z.log2 n))) n.

(** The decimal exponent of [n/d > 0]: the [X] with
    [10^X <= n/d < 10^(X+1)]. *)
Definition dec_exponent (n d : Z) : Z :=
  let x := ilog10 n - ilog10 d in
  let le := if 0 <=? x then 10 ^ x * d <=? n else d <=? n * 10 ^ (- x) in
  if le then x else x - 1.

Fixpoint strip_zeros_rev (s : list ascii) : list ascii :=
  match s with
  | "0"%char :: s' => strip_zeros_rev s'
  | _ => s
  end.

(** Trailing zeros removed. *)
Definition strip_trailing_zeros (s : string) : string :=
  string_of_list_ascii
    (rev (strip_zeros_rev (rev (list_ascii_of_string s)))).

Fixpoint zeros (k : nat) : string :=
  match k with O => "" | S k' => String "0" (zeros k') end.

Definition substring_from (k : nat) (s : string) : string :=
  String.substring k (String.length s - k) s.

(** The exponent of the [e] style: a sign and at least two digits. *)
Definition exp_str (x : Z) : string :=
  (if x <? 0 then "-" else "+") +:+
  (if Z.abs x <? 10 then "0" else "") +:+ str_int (Z.abs x).

(** The format specification [g] with precision [p]: [p] significant
    digits, trailing zeros removed, exponent style when the decimal
    exponent is below -4 or not below [p]. *)
Definition format_g_prec (p : nat) (x : float) : string :=
  match Prim2SF x with
  | S754_nan => "nan"
  | S754_infinity s => sign_str s +:+ "inf"
  | S754_zero s => sign_str s +:+ "0"
  | S754_finite s m e =>
      let '(n, d) := mant_frac m e in
      let x0 := dec_exponent n d in
      let v0 := scaled (Z.of_nat p - 1 - x0) n d in
      let '(v, X) :=
        if 10 ^ Z.of_nat p <=? v0 then (v0 / 10, x0 + 1) else (v0, x0) in
      let digits := strip_trailing_zeros (digits_fixed p v) in
      let body :=
        if (X <? -4) || (Z.of_nat p <=? X) then
          String.substring 0 1 digits +:+
          (if (1 <? String.length digits)%nat
           then "." +:+ substring_from 1 digits else "") +:+
          "e" +:+ exp_str X
        else
          let decpt := X + 1 in
          if decpt <=? 0 then "0." +:+ zeros (Z.to_nat (- decpt)) +:+ digits
          else if Z.of_nat (String.length digits) <=? decpt
          then digits +:+ zeros (Z.to_nat decpt - String.length digits)
          else String.substring 0 (Z.to_nat decpt) digits +:+ "." +:+
               substring_from (Z.to_nat decpt) digits in
      sign_str s +:+ body
  end.

(** The format specification [g]: precision 6. *)
Definition format_g (x : float) : string := format_g_prec 6 x.

(** ** The real value of a binary64 number *)

(** [2^e], for any integer [e]. *)
Definition pow2 (e : Z) : R := powerRZ 2 e.

Definition sgn (s : bool) : R := if s then (-1)%R else 1%R.

(** The value of a number in the format of [SpecFloat] (0 for the
    non-finite). *)
Definition SF2R (x : spec_float) : R :=
  match x with
  | S754_finite s m e =>
      if s then (- (IZR (Z.pos m) * pow2 e))%R else (IZR (Z.pos m) * pow2 e)%R
  | _ => 0%R
  end.

(** The real value of a binary64 number (0 for the non-finite). *)
Definition float_to_R (x : float) : R := Q2R (float_to_Q x).

(** A normal number: finite, with all 53 digits of the mantissa in use
    (magnitude from [2^-1022] up). *)
Definition normal (x : float) : Prop :=
  exists s m e, Prim2SF x = S754_finite s m e /\ 2 ^ 52 <= Z.pos m < 2 ^ 53.


(** The place of a real [t] with respect to the integer [m], as the
    rounding of [SpecFloat] records it: [t = m], or [t] strictly between
    [m] and [m + 1], below, at or above the middle. *)
Definition inbetween (m : Z) (l : location) (t : R) : Prop :=
  match l with
  | loc_Exact => t = IZR m
  | loc_Inexact c =>
      (IZR m < t < IZR m + 1)%R /\
      match c with
      | Lt => (t < IZR m + / 2)%R
      | Eq => (t = IZR m + / 2)%R
      | Gt => (IZR m + / 2 < t)%R
      end
  end.

(** ** The two input tables

    [pd.read_csv] gives a DataFrame; the model keeps the columns the script
    reads, each with the type §6 of the specification gives it.  A column
    that the file does not have is [None]. *)

Record ResultsFrame := {
  run : option (list float);
  speedup : option (list float);
  relative_error : option (list float)
}.

Record StatsFrame := {
  metric : option (list string);
  value : option (list float)
}.

(** The files the script opens; [None] is a file that is missing or cannot
    be read. *)
Record Env := {
  results_csv : option ResultsFrame;
  stats_csv : option StatsFrame
}.

(** What the script hands to matplotlib. *)
Record Figure := {
  suptitle : string;
  time_series : list (float * float);
  average_label : string;
  hist_values : list float;
  box_plots : list (list float);
  stats_text : string;
  scatter_points : list (float * float);
  scatter_colors : list nat;
  avg_error_label : string;
  corr_text : string
}.

(** ** The script monad: standard output, the saved image, exceptions *)

Record World := {
  stdout : list string;            (* one entry per [print] call *)
  png : option Figure              (* [speedup_analysis.png] *)
}.

Definition Script (A : Type) : Type := World -> World * (exn + A).

#[export] Instance script_ret : MRet Script := fun A x w => (w, inr x).

#[export] Instance script_bind : MBind Script := fun A B f m w =>
  match m w with
  | (w', inr a) => f a w'
  | (w', inl e) => (w', inl e)
  end.

Definition raise {A} (e : exn) : Script A := fun w => (w, inl e).

Definition lift_exn {A} (r : exn + A) : Script A :=
  match r with inl e => raise e | inr a => mret a end.

Definition print (s : string) : Script unit := fun w =>
  ({| stdout := stdout w ++ [s]; png := png w |}, inr tt).

Definition savefig (fig : Figure) : Script unit := fun w =>
  ({| stdout := stdout w; png := Some fig |}, inr tt).

Definition read_csv {A} (path : string) (file : option A) : Script A :=
  match file with Some df => mret df | None => raise (OSError path) end.

(** [df[name]]: [KeyError] for a column the table does not have. *)
Definition column {A} (name : string) (col : option (list A)) : Script (list A) :=
  match col with Some c => mret c | None => raise (KeyError name) end.

(** [dict(zip(keys, values))]: pairs inserted from left to right. *)
Definition dict_zip (keys : list string) (values : list float) : gmap string float :=
  fold_left (fun d kv => <[kv.1 := kv.2]> d) (zip keys values) ∅.

(** [d[key]]. *)
Definition getitem (d : gmap string float) (key : string) : Script float :=
  match d !! key with Some v => mret v | None => raise (KeyError key) end.

Definition nl : string := String (ascii_of_nat 10) EmptyString.

Definition hundred : float := 100%float.

(** ** The script *)

(** Lines 78-90: the statistics box of the third panel. *)
Definition make_stats_text (avg_speedup min_speedup max_speedup
    avg_error min_error max_error : float) (sp er : list float) : string :=
  "SPEEDUP STATS:" +:+ nl +:+
  "Mean: " +:+ format_f 3 avg_speedup +:+ "x" +:+ nl +:+
  "Median: " +:+ format_f 3 (median sp) +:+ "x" +:+ nl +:+
  "Std: " +:+ format_f 3 (std sp) +:+ nl +:+
  "Min: " +:+ format_f 3 min_speedup +:+ "x" +:+ nl +:+
  "Max: " +:+ format_f 3 max_speedup +:+ "x" +:+ nl +:+
  nl +:+
  "ERROR STATS:" +:+ nl +:+
  "Mean: " +:+ format_f 4 (avg_error * hundred) +:+ "%" +:+ nl +:+
  "Median: " +:+ format_f 4 (median er * hundred) +:+ "%" +:+ nl +:+
  "Std: " +:+ format_f 4 (std er * hundred) +:+ "%" +:+ nl +:+
  "Min: " +:+ format_f 4 (min_error * hundred) +:+ "%" +:+ nl +:+
  "Max: " +:+ format_f 4 (max_error * hundred) +:+ "%".

(** Line 108: the annotation of the fourth panel. *)
Definition make_corr_text (sp er : list float) (num_runs : Z) : string :=
  "Correlation: " +:+ format_f 3 (corr sp er) +:+ nl +:+
  "Runs > 1.0x: " +:+ str_int (bool_sum (gt_mask 1.0%float sp)) +:+ "/" +:+
  str_int num_runs.

(** Lines 122-123: a threshold line of the report. *)
Definition threshold_line (label : string) (thr : float) (sp : list float)
    (num_runs : Z) : string :=
  "Runs with speedup > " +:+ label +:+ "x: " +:+
  str_int (bool_sum (gt_mask thr sp)) +:+ "/" +:+ str_int num_runs +:+
  " (" +:+ format_f 1 (percentage (gt_mask thr sp)) +:+ "%)".

Definition main (env : Env) : Script unit :=
  (* lines 12-13 *)
  speedup_data ← read_csv "speedup_results.csv" (results_csv env);
  stats_data ← read_csv "speedup_stats.csv" (stats_csv env);
  (* line 16 *)
  metric_s ← column "metric" (metric stats_data);
  value_s ← column "value" (value stats_data);
  let stats_dict := dict_zip metric_s value_s in
  (* lines 17-23 *)
  avg_speedup ← getitem stats_dict "avg_speedup";
  min_speedup ← getitem stats_dict "min_speedup";
  max_speedup ← getitem stats_dict "max_speedup";
  avg_error ← getitem stats_dict "avg_error";
  min_error ← getitem stats_dict "min_error";
  max_error ← getitem stats_dict "max_error";
  num_runs_value ← getitem stats_dict "num_runs";
  num_runs ← lift_exn (py_int num_runs_value);
  (* lines 25-33 *)
  print ("Statistics from " +:+ str_int num_runs +:+ " runs:");;
  print ("Average speedup: " +:+ format_f 4 avg_speedup +:+ "x");;
  print ("Minimum speedup: " +:+ format_f 4 min_speedup +:+ "x");;
  print ("Maximum speedup: " +:+ format_f 4 max_speedup +:+ "x");;
  sp ← column "speedup" (speedup speedup_data);
  print ("Standard deviation speedup: " +:+ format_f 4 (std sp));;
  print ("Average relative error: " +:+ format_g avg_error);;
  print ("Minimum relative error: " +:+ format_g min_error);;
  print ("Maximum relative error: " +:+ format_g max_error);;
  er ← column "relative_error" (relative_error speedup_data);
  print ("Standard deviation error: " +:+ format_g (std er));;
  (* lines 36-110: the figure *)
  rn ← column "run" (run speedup_data);
  sp ← column "speedup" (speedup speedup_data);
  er ← column "relative_error" (relative_error speedup_data);
  let fig := {|
    suptitle := "HybridVector vs Regular Vector: Performance and Accuracy Analysis";
    time_series := zip rn sp;
    average_label := "Average: " +:+ format_f 3 avg_speedup +:+ "x";
    hist_values := sp;
    box_plots := [sp; sp];
    stats_text := make_stats_text avg_speedup min_speedup max_speedup
                    avg_error min_error max_error sp er;
    scatter_points := zip sp (map (fun e => e * hundred)%float er);
    scatter_colors := seq 0 (length sp);
    avg_error_label := "Avg error: " +:+ format_f 4 (avg_error * hundred) +:+ "%";
    corr_text := make_corr_text sp er num_runs
  |} in
  (* lines 112-114 *)
  savefig fig;;
  print "Plot saved as speedup_analysis.png";;
  (* lines 118-127 *)
  print (nl +:+ "Additional Statistics:");;
  sp ← column "speedup" (speedup speedup_data);
  print ("Median speedup: " +:+ format_f 4 (median sp) +:+ "x");;
  print ("25th percentile speedup: " +:+ format_f 4 (quantile 1 4 sp) +:+ "x");;
  print ("75th percentile speedup: " +:+ format_f 4 (quantile 3 4 sp) +:+ "x");;
  print (threshold_line "1.0" 1.0%float sp num_runs);;
  print (threshold_line "1.5" 1.5%float sp num_runs);;
  print (nl +:+ "Error Statistics:");;
  er ← column "relative_error" (relative_error speedup_data);
  print ("Median relative error: " +:+
         format_f 6 (median er * hundred) +:+ "%");;
  print ("25th percentile error: " +:+
         format_f 6 (quantile 1 4 er * hundred) +:+ "%");;
  print ("75th percentile error: " +:+
         format_f 6 (quantile 3 4 er * hundred) +:+ "%").

Definition start : World := {| stdout := []; png := None |}.

(** One run of the script on the given files. *)
Definition run_script (env : Env) : World * (exn + unit) := main env start.

(** The status the interpreter exits with: 1 after an uncaught exception. *)
Definition exit_status (r : exn + unit) : Z :=
  match r with inr _ => 0 | inl _ => 1 end.

(** ** Inputs and predicates the theorems speak about *)

(** The seven metrics the script looks up, in the order of lines 17-23. *)
Definition required_metrics : list string :=
  ["avg_speedup"; "min_speedup"; "max_speedup";
   "avg_error"; "min_error"; "max_error"; "num_runs"]%string.

(** Both files are there with all their columns, and the stats mapping has
    the seven metrics, with values [vals] in the order of
    [required_metrics]. *)
Definition loads (env : Env) (rn sp er : list float) (vals : list float) : Prop :=
  exists ms vs,
    results_csv env =
      Some {| run := Some rn; speedup := Some sp; relative_error := Some er |} /\
    stats_csv env = Some {| metric := Some ms; value := Some vs |} /\
    mapM (fun k => dict_zip ms vs !! k) required_metrics = Some vals.

(** What [main] prints, print call by print call, when nothing raises. *)
Definition report (avg_speedup min_speedup max_speedup avg_error min_error
    max_error : float) (num_runs : Z) (sp er : list float) : list string :=
  [ "Statistics from " +:+ str_int num_runs +:+ " runs:";
    "Average speedup: " +:+ format_f 4 avg_speedup +:+ "x";
    "Minimum speedup: " +:+ format_f 4 min_speedup +:+ "x";
    "Maximum speedup: " +:+ format_f 4 max_speedup +:+ "x";
    "Standard deviation speedup: " +:+ format_f 4 (std sp);
    "Average relative error: " +:+ format_g avg_error;
    "Minimum relative error: " +:+ format_g min_error;
    "Maximum relative error: " +:+ format_g max_error;
    "Standard deviation error: " +:+ format_g (std er);
    "Plot saved as speedup_analysis.png";
    nl +:+ "Additional Statistics:";
    "Median speedup: " +:+ format_f 4 (median sp) +:+ "x";
    "25th percentile speedup: " +:+ format_f 4 (quantile 1 4 sp) +:+ "x";
    "75th percentile speedup: " +:+ format_f 4 (quantile 3 4 sp) +:+ "x";
    threshold_line "1.0" 1.0%float sp num_runs;
    threshold_line "1.5" 1.5%float sp num_runs;
    nl +:+ "Error Statistics:";
    "Median relative error: " +:+ format_f 6 (median er * hundred) +:+ "%";
    "25th percentile error: " +:+ format_f 6 (quantile 1 4 er * hundred) +:+ "%";
    "75th percentile error: " +:+ format_f 6 (quantile 3 4 er * hundred) +:+ "%"
  ]%string.

Definition stats_frame (rows : list (string * float)) : StatsFrame :=
  {| metric := Some (rows.*1); value := Some (rows.*2) |}.

Definition results_frame (rn sp er : list float) : ResultsFrame :=
  {| run := Some rn; speedup := Some sp; relative_error := Some er |}.

(** The end-to-end scenario of the specification. *)
Definition ex_speedup : list float := [0.9; 1.0; 1.1; 1.2; 2.0]%float.
Definition ex_error : list float := [0.01; 0.02; 0.01; 0.03; 0.05]%float.
Definition ex_run : list float := [1; 2; 3; 4; 5]%float.

Definition ex_stats (avg_error min_error max_error num_runs : float)
  : list (string * float) :=
  [("avg_speedup", 1.24); ("min_speedup", 0.9); ("max_speedup", 2.0);
   ("avg_error", avg_error); ("min_error", min_error);
   ("max_error", max_error); ("num_runs", num_runs)]%float.

Definition scenario_env (avg_error min_error max_error : float) : Env :=
  {| results_csv := Some (results_frame ex_run ex_speedup ex_error);
     stats_csv := Some (stats_frame (ex_stats avg_error min_error max_error 5)) |}.

Definition the_figure (a1 a2 a3 a4 a5 a6 : float) (n : Z)
    (rn sp er : list float) : Figure :=
  {| suptitle := "HybridVector vs Regular Vector: Performance and Accuracy Analysis";
     time_series := zip rn sp;
     average_label := "Average: " +:+ format_f 3 a1 +:+ "x";
     hist_values := sp;
     box_plots := [sp; sp];
     stats_text := make_stats_text a1 a2 a3 a4 a5 a6 sp er;
     scatter_points := zip sp (map (fun e => e * hundred)%float er);
     scatter_colors := seq 0 (length sp);
     avg_error_label := "Avg error: " +:+ format_f 4 (a4 * hundred) +:+ "%";
     corr_text := make_corr_text sp er n |}.

(** The run reaches the end of the script. *)
Definition completes (env : Env) : Prop := (run_script env).2 = inr tt.

(** What print call number [i] (from 0) wrote. *)
Definition line (env : Env) (i : nat) : option string :=
  stdout (run_script env).1 !! i.

(** Print call [i] shows something loaded from the stats file: what it
    writes can change when only the stats file changes. *)
Definition shows_loaded (i : nat) : Prop :=
  exists env env',
    results_csv env = results_csv env' /\ completes env /\ completes env' /\
    line env i <> line env' i.

(** Print call [i] shows something derived from the Run Records: what it
    writes can change when only the results file changes. *)
Definition shows_derived (i : nat) : Prop :=
  exists env env',
    stats_csv env = stats_csv env' /\ completes env /\ completes env' /\
    line env i <> line env' i.

(** The ordering the specification states: every print call that shows
    loaded values only comes before every one that shows a derived
    statistic. *)
Definition loaded_first_then_derived : Prop :=
  forall i j,
    shows_loaded i -> ~ shows_derived i -> shows_derived j -> (i < j)%nat.

Definition one_row_env (x y : float) : Env :=
  {| results_csv := Some (results_frame [1%float] [x] [y]);
     stats_csv := Some (stats_frame (ex_stats 0.024 0.01 0.05 1)) |}.

Definition mismatch_env : Env :=
  {| results_csv := Some (results_frame ex_run ex_speedup ex_error);
     stats_csv := Some (stats_frame (ex_stats 0.024 0.01 0.05 7)) |}.

(** *** Reading a printed number back *)

(** The text after the first occurrence of the character [c]. *)
Fixpoint after_char (c : ascii) (s : string) : option string :=
  match s with
  | EmptyString => None
  | String a s' => if Ascii.eqb a c then Some s' else after_char c s'
  end.

Definition is_digit (a : ascii) : bool :=
  (48 <=? nat_of_ascii a)%nat && (nat_of_ascii a <=? 57)%nat.

Fixpoint all_digits (s : string) : bool :=
  match s with
  | EmptyString => true
  | String a s' => is_digit a && all_digits s'
  end.

(** The number of decimal places of a printed number: the count of digits
    after its decimal point, when that is all that follows the point. *)
Definition decimal_places (s : string) : option nat :=
  match after_char "." s with
  | Some t => if all_digits t then Some (String.length t) else None
  | None => None
  end.

(** [s] without its final ["%"], when it ends with one. *)
Fixpoint strip_percent (s : string) : option string :=
  match s with
  | EmptyString => None
  | String a EmptyString => if Ascii.eqb a "%" then Some EmptyString else None
  | String a s' => option_map (String a) (strip_percent s')
  end.

(** [s] is a percentage with between 4 and 6 decimal places. *)
Definition percent_4_to_6 (s : string) : bool :=
  match strip_percent s with
  | Some t =>
      match decimal_places t with
      | Some k => (4 <=? k)%nat && (k <=? 6)%nat
      | None => false
      end
  | None => false
  end.

(** The value a report line shows: what follows its label and [": "]. *)
Definition value_text (s : string) : string :=
  match after_char ":" s with
  | Some (String " " t) => t
  | _ => EmptyString
  end.

(** The print calls that show an error-like fraction: average, minimum,
    maximum and standard deviation, then median and the two percentiles. *)
Definition error_calls : list nat := [5; 6; 7; 8; 17; 18; 19]%nat.

(** The formatting the specification states for the error-like fractions
    of one run. *)
Definition errors_printed_as_percentages (env : Env) : Prop :=
  forall i, In i error_calls ->
    exists s, line env i = Some s /\ percent_4_to_6 (value_text s) = true.

(** *** Columns as real numbers *)












(** *** Defects of the Load step *)

(** The stats file is there but has no [metric] or no [value] column. *)
Definition missing_stats_column (env : Env) : Prop :=
  exists s, stats_csv env = Some s /\ (metric s = None \/ value s = None).

(** The results file is there but lacks one of its three columns. *)
Definition missing_results_column (env : Env) : Prop :=
  exists r, results_csv env = Some r /\
    (run r = None \/ speedup r = None \/ relative_error r = None).

(** Either input file is missing or unreadable, or lacks an expected
    column. *)
Definition load_defect (env : Env) : Prop :=
  results_csv env = None \/ stats_csv env = None \/
  missing_stats_column env \/ missing_results_column env.

(** The run fails before anything is printed or written, with a non-zero
    exit status. *)
Definition aborts_before_output (env : Env) : Prop :=
  (exists e, (run_script env).2 = inl e) /\
  stdout (run_script env).1 = [] /\
  png (run_script env).1 = None /\
  exit_status (run_script env).2 <> 0.

(** The failure semantics the specification states. *)
Definition load_failure_semantics : Prop :=
  forall env, load_defect env -> aborts_before_output env.

(** A results file without the [speedup] column, next to a complete stats
    file. *)
Definition no_speedup_env : Env :=
  {| results_csv :=
       Some {| run := Some ex_run; speedup := None;
               relative_error := Some ex_error |};
     stats_csv := Some (stats_frame (ex_stats 0.024 0.01 0.05 5)) |}.

(** *** Truncation *)

(** A rational truncated toward zero. *)
Definition Qtrunc (q : Q) : Z :=
  if Qle_bool 0 q then Qfloor q else Qceiling q.

(** The scenario with a [num_runs] value that is not an integer. *)
Definition fractional_env : Env :=
  {| results_csv := Some (results_frame ex_run ex_speedup ex_error);
     stats_csv := Some (stats_frame (ex_stats 0.024 0.01 0.05 5.7)) |}.

(** *** Stats files with repeated and additional rows *)

Definition stats_env (results : option ResultsFrame)
    (ms : list string) (vs : list float) : Env :=
  {| results_csv := results;
     stats_csv := Some {| metric := Some ms; value := Some vs |} |}.

(** *** Runs that stop early *)

(** The stats file is there with both columns and holds the seven metrics,
    with values [vals] in the order of [required_metrics]. *)
Definition stats_loads (env : Env) (vals : list float) : Prop :=
  exists ms vs,
    stats_csv env = Some {| metric := Some ms; value := Some vs |} /\
    mapM (fun k => dict_zip ms vs !! k) required_metrics = Some vals.

(** The print calls that show loaded values only, and those that show
    statistics of the Run Records only. *)
Definition loaded_calls : list nat := [0; 1; 2; 3; 5; 6; 7]%nat.
Definition derived_calls : list nat := [4; 8; 11; 12; 13; 17; 18; 19]%nat.

(** Everything of a figure except the time series of the first panel. *)
Definition figure_but_time_series (f : Figure) :=
  (suptitle f, average_label f, hist_values f, box_plots f, stats_text f,
   scatter_points f, scatter_colors f, avg_error_label f, corr_text f).

(** A stats file without the [max_error] row. *)
Definition no_max_error_env : Env :=
  stats_env (Some (results_frame ex_run ex_speedup ex_error))
    ["avg_speedup"; "min_speedup"; "max_speedup"; "avg_error"; "min_error";
     "num_runs"]
    [1.24; 0.9; 2.0; 0.024; 0.01; 5]%float.

(** Stats files whose [num_runs] is not a finite number. *)
Definition nan_runs_env : Env :=
  {| results_csv := Some (results_frame ex_run ex_speedup ex_error);
     stats_csv := Some (stats_frame (ex_stats 0.024 0.01 0.05 nan)) |}.

Definition inf_runs_env : Env :=
  {| results_csv := Some (results_frame ex_run ex_speedup ex_error);
     stats_csv := Some (stats_frame (ex_stats 0.024 0.01 0.05 infinity)) |}.

(** A results file without the [run] column, next to a complete stats
    file. *)
Definition no_run_env : Env :=
  {| results_csv :=
       Some {| run := None; speedup := Some ex_speedup;
               relative_error := Some ex_error |};
     stats_csv := Some (stats_frame (ex_stats 0.024 0.01 0.05 5)) |}.

(** * Theorems *)

(** ** Running the script *)

Lemma loads_lookups env rn sp er vals :
  loads env rn sp er vals ->
  exists ms vs a1 a2 a3 a4 a5 a6 a7,
    vals = [a1; a2; a3; a4; a5; a6; a7] /\
    results_csv env = Some (results_frame rn sp er) /\
    stats_csv env = Some {| metric := Some ms; value := Some vs |} /\
    dict_zip ms vs !! "avg_speedup" = Some a1 /\
    dict_zip ms vs !! "min_speedup" = Some a2 /\
    dict_zip ms vs !! "max_speedup" = Some a3 /\
    dict_zip ms vs !! "avg_error" = Some a4 /\
    dict_zip ms vs !! "min_error" = Some a5 /\
    dict_zip ms vs !! "max_error" = Some a6 /\
    dict_zip ms vs !! "num_runs" = Some a7.
Proof.
  intros (ms & vs & Hr & Hs & Hm).
  exists ms, vs.
  unfold required_metrics in Hm. cbn [mapM] in Hm.
  repeat match type of Hm with
  | context [dict_zip ms vs !! ?k] =>
      destruct (dict_zip ms vs !! k) eqn:?; [ | discriminate Hm ]
  end.
  cbn in Hm. injection Hm as <-.
  do 7 eexists. repeat split; eauto.
Qed.

(** A run in which nothing raises prints the whole report and saves the
    figure. *)
Lemma run_script_ok env rn sp er a1 a2 a3 a4 a5 a6 a7 n :
  loads env rn sp er [a1; a2; a3; a4; a5; a6; a7] ->
  py_int a7 = inr n ->
  run_script env =
    ({| stdout := report a1 a2 a3 a4 a5 a6 n sp er;
        png := Some (the_figure a1 a2 a3 a4 a5 a6 n rn sp er) |}, inr tt).
Proof.
  intros Hl Hn.
  apply loads_lookups in Hl
    as (ms & vs & b1 & b2 & b3 & b4 & b5 & b6 & b7 & E & Hr & Hs &
        H1 & H2 & H3 & H4 & H5 & H6 & H7).
  injection E as -> -> -> -> -> -> ->.
  unfold run_script, main.
  rewrite Hr, Hs.
  cbv [mbind script_bind mret script_ret read_csv column raise metric value
       results_frame speedup relative_error run start getitem].
  rewrite H1, H2, H3, H4, H5, H6, H7, Hn.
  reflexivity.
Qed.

Lemma scenario_loads (a4 a5 a6 a7 : float) sp er rn :
  loads {| results_csv := Some (results_frame rn sp er);
           stats_csv := Some (stats_frame (ex_stats a4 a5 a6 a7)) |}
        rn sp er [1.24; 0.9; 2.0; a4; a5; a6; a7]%float.
Proof.
  eexists _, _. split; [reflexivity|]. split; [reflexivity|].
  vm_compute. reflexivity.
Qed.

(** C1: in the end-to-end scenario (speedup = [0.9, 1.0, 1.1, 1.2, 2.0],
    relative_error = [0.01, 0.02, 0.01, 0.03, 0.05], a stats mapping with
    avg_speedup=1.24, min_speedup=0.9, max_speedup=2.0, num_runs=5 and any
    error metrics) the median speedup is 1.1, three of the five runs have a
    speedup above 1.0, the run completes and saves the image, and the report
    shows the median as 1.1000x and the count as 3/5 (60.0%). *)
Theorem C1_end_to_end_scenario (avg_error min_error max_error : float) :
  let out := run_script (scenario_env avg_error min_error max_error) in
  median ex_speedup = 1.1%float /\
  bool_sum (gt_mask 1.0%float ex_speedup) = 3 /\
  length ex_speedup = 5%nat /\
  out.2 = inr tt /\
  is_Some (png out.1) /\
  stdout out.1 !! 11%nat = Some "Median speedup: 1.1000x" /\
  stdout out.1 !! 14%nat = Some "Runs with speedup > 1.0x: 3/5 (60.0%)".
Proof.
  cbv zeta. unfold scenario_env.
  rewrite (run_script_ok _ _ _ _ _ _ _ _ _ _ _ 5
             (scenario_loads avg_error min_error max_error 5 _ _ _) eq_refl).
  cbn [fst snd stdout png report].
  split; [vm_compute; reflexivity|]. split; [vm_compute; reflexivity|].
  split; [reflexivity|]. split; [reflexivity|].
  split; [eexists; reflexivity|].
  split; vm_compute; reflexivity.
Qed.

(** ** Strings *)

Lemma str_int_inj n m : str_int n = str_int m -> n = m.
Proof.
  unfold str_int. intros E.
  assert (Hnn : forall z, Z.to_int z <> Pos Nil /\ Z.to_int z <> Neg Nil).
  { intros [|p|p]; cbn; split; try discriminate;
      intros [= E']; exact (DecimalPos.Unsigned.to_uint_nonnil p E'). }
  assert (E' : Some (Z.to_int n) = Some (Z.to_int m)).
  { rewrite <- (NilZero.isi (Z.to_int n)), <- (NilZero.isi (Z.to_int m));
      try apply Hnn. now rewrite E. }
  injection E' as E'.
  rewrite <- (DecimalZ.of_to n), <- (DecimalZ.of_to m). now rewrite E'.
Qed.

Lemma string_length_app (s t : string) :
  String.length (s +:+ t) = (String.length s + String.length t)%nat.
Proof. induction s; simpl; [reflexivity | now rewrite IHs]. Qed.

Lemma append_inv_tail (s1 s2 t : string) : s1 +:+ t = s2 +:+ t -> s1 = s2.
Proof.
  revert s2. induction s1 as [|a s1 IH]; intros [|b s2] E.
  - reflexivity.
  - apply (f_equal String.length) in E.
    rewrite !string_length_app in E. simpl in E. lia.
  - apply (f_equal String.length) in E.
    rewrite !string_length_app in E. simpl in E. lia.
  - simpl in E. injection E as -> E. f_equal. now apply IH.
Qed.

(** C2: the loaded [num_runs] is never compared with the number of Run
    Records.  Whenever the two differ (and the files load), the run
    completes without error, and the header and both threshold lines print
    the loaded [num_runs]; the header is not the one the row count would
    give. *)
Theorem C2_num_runs_not_cross_validated env rn sp er a1 a2 a3 a4 a5 a6 a7 n :
  loads env rn sp er [a1; a2; a3; a4; a5; a6; a7] ->
  py_int a7 = inr n ->
  n <> Z.of_nat (length sp) ->
  let out := run_script env in
  out.2 = inr tt /\
  stdout out.1 !! 0%nat = Some ("Statistics from " +:+ str_int n +:+ " runs:") /\
  stdout out.1 !! 14%nat =
    Some ("Runs with speedup > 1.0x: " +:+
          str_int (bool_sum (gt_mask 1.0%float sp)) +:+ "/" +:+ str_int n +:+
          " (" +:+ format_f 1 (percentage (gt_mask 1.0%float sp)) +:+
          "%)") /\
  stdout out.1 !! 15%nat =
    Some ("Runs with speedup > 1.5x: " +:+
          str_int (bool_sum (gt_mask 1.5%float sp)) +:+ "/" +:+ str_int n +:+
          " (" +:+ format_f 1 (percentage (gt_mask 1.5%float sp)) +:+
          "%)") /\
  stdout out.1 !! 0%nat <>
    Some ("Statistics from " +:+ str_int (Z.of_nat (length sp)) +:+ " runs:").
Proof.
  intros Hl Hn Hne. cbv zeta.
  rewrite (run_script_ok _ _ _ _ _ _ _ _ _ _ _ _ Hl Hn).
  cbn [fst snd stdout report].
  repeat split.
  intros [= E].
  apply (append_inv_tail (str_int n) (str_int (Z.of_nat (length sp)))) in E.
  apply str_int_inj in E. contradiction.
Qed.

Lemma C2_witness :
  7 <> Z.of_nat (length ex_speedup) /\
  (run_script mismatch_env).2 = inr tt /\
  stdout (run_script mismatch_env).1 !! 0%nat = Some "Statistics from 7 runs:" /\
  stdout (run_script mismatch_env).1 !! 14%nat =
    Some "Runs with speedup > 1.0x: 3/7 (60.0%)".
Proof.
  assert (Hne : 7 <> Z.of_nat (length ex_speedup)) by (vm_compute; discriminate).
  split; [exact Hne|].
  destruct (C2_num_runs_not_cross_validated mismatch_env _ _ _ _ _ _ _ _ _ _ 7
              (scenario_loads _ _ _ _ _ _ _) eq_refl Hne) as (H1 & H2 & H3 & _).
  split; [exact H1|].
  split; [rewrite H2 | rewrite H3]; vm_compute; reflexivity.
Defined.

(** ** Runs that complete *)

Ltac run_step_in H :=
  cbv [mbind script_bind mret script_ret read_csv column raise getitem
       lift_exn print savefig start metric value speedup relative_error run
       results_csv stats_csv snd fst stdout png app] in H.

(** A run reaches the end only if both files loaded with all their columns
    and the seven metrics, and [num_runs] converted. *)
Lemma completes_loads env :
  completes env ->
  exists rn sp er a1 a2 a3 a4 a5 a6 a7 n,
    loads env rn sp er [a1; a2; a3; a4; a5; a6; a7] /\ py_int a7 = inr n.
Proof.
  unfold completes, run_script, main.
  destruct env as [[[[rn|] [sp|] [er|]]|] [[[ms|] [vs|]]|]]; intros Hc;
    run_step_in Hc; try discriminate Hc;
    repeat match type of Hc with
    | context [dict_zip ms vs !! ?k] =>
        destruct (dict_zip ms vs !! k) eqn:?; [ | discriminate Hc ]
    end;
    match type of Hc with
    | context [py_int ?f] => destruct (py_int f) eqn:Hn; [ discriminate Hc | ]
    end;
    run_step_in Hc; try discriminate Hc.
  do 11 eexists. split; [ | exact Hn ].
  exists ms, vs. split; [reflexivity|]. split; [reflexivity|].
  unfold required_metrics. cbn [mapM].
  repeat match goal with H : _ !! _ = Some _ |- _ => rewrite H; clear H end.
  reflexivity.
Qed.

(** When only the results file changes, the values looked up in the stats
    mapping stay the same. *)
Lemma loads_same_stats env env' rn sp er vals rn' sp' er' vals' :
  stats_csv env = stats_csv env' ->
  loads env rn sp er vals -> loads env' rn' sp' er' vals' -> vals = vals'.
Proof.
  intros E (ms & vs & _ & Hs & Hm) (ms' & vs' & _ & Hs' & Hm').
  rewrite E, Hs' in Hs. injection Hs as <- <-.
  rewrite Hm in Hm'. now injection Hm'.
Qed.

Lemma average_error_line_not_derived : ~ shows_derived 5.
Proof.
  intros (env & env' & E & Hc & Hc' & Hne). apply Hne. clear Hne.
  apply completes_loads in Hc
    as (rn & sp & er & a1 & a2 & a3 & a4 & a5 & a6 & a7 & n & Hl & Hn).
  apply completes_loads in Hc'
    as (rn' & sp' & er' & b1 & b2 & b3 & b4 & b5 & b6 & b7 & n' & Hl' & Hn').
  pose proof (loads_same_stats _ _ _ _ _ _ _ _ _ _ E Hl Hl') as Ev.
  injection Ev as <- <- <- <- <- <- <-.
  unfold line.
  rewrite (run_script_ok _ _ _ _ _ _ _ _ _ _ _ _ Hl Hn).
  rewrite (run_script_ok _ _ _ _ _ _ _ _ _ _ _ _ Hl' Hn').
  reflexivity.
Qed.

Lemma average_error_line_loaded : shows_loaded 5.
Proof.
  exists (scenario_env 0.024 0.01 0.05), (scenario_env 0.5 0.01 0.05).
  split; [reflexivity|]. split; [vm_compute; reflexivity|].
  split; [vm_compute; reflexivity|].
  vm_compute. discriminate.
Qed.

Lemma std_speedup_line_derived : shows_derived 4.
Proof.
  exists (scenario_env 0.024 0.01 0.05),
    {| results_csv := Some (results_frame [1; 2] [1.0; 3.0] [0.01; 0.02])%float;
       stats_csv := stats_csv (scenario_env 0.024 0.01 0.05) |}.
  split; [reflexivity|]. split; [vm_compute; reflexivity|].
  split; [vm_compute; reflexivity|].
  vm_compute. discriminate.
Qed.

(** C3, counterexample: the fifth print call (number 4) shows the standard
    deviation of the speedup column, derived from the Run Records, and the
    sixth (number 5) shows the loaded average error and nothing derived: a
    derived statistic is printed before a loaded value. *)
Lemma C3_counterexample : ~ loaded_first_then_derived.
Proof.
  intros H.
  specialize (H 5%nat 4%nat average_error_line_loaded
                average_error_line_not_derived std_speedup_line_derived).
  lia.
Qed.

(** C3, amended: the report is printed in one fixed sequence of twenty print
    calls.  The first block interleaves loaded values with the two standard
    deviations derived from the Run Records: run count, average, minimum
    and maximum speedup, standard deviation of the speedups, average,
    minimum and maximum error, standard deviation of the errors.  After the
    notice that the plot was saved come the remaining derived statistics:
    median and percentiles of the speedups, the two threshold counts (over
    the loaded run count), median and percentiles of the errors. *)
Theorem C3_report_sequence env rn sp er
    avg_speedup min_speedup max_speedup avg_error min_error max_error
    num_runs_value num_runs :
  loads env rn sp er [avg_speedup; min_speedup; max_speedup;
                      avg_error; min_error; max_error; num_runs_value] ->
  py_int num_runs_value = inr num_runs ->
  stdout (run_script env).1 =
  [ "Statistics from " +:+ str_int num_runs +:+ " runs:";
    "Average speedup: " +:+ format_f 4 avg_speedup +:+ "x";
    "Minimum speedup: " +:+ format_f 4 min_speedup +:+ "x";
    "Maximum speedup: " +:+ format_f 4 max_speedup +:+ "x";
    "Standard deviation speedup: " +:+ format_f 4 (std sp);
    "Average relative error: " +:+ format_g avg_error;
    "Minimum relative error: " +:+ format_g min_error;
    "Maximum relative error: " +:+ format_g max_error;
    "Standard deviation error: " +:+ format_g (std er);
    "Plot saved as speedup_analysis.png";
    nl +:+ "Additional Statistics:";
    "Median speedup: " +:+ format_f 4 (median sp) +:+ "x";
    "25th percentile speedup: " +:+ format_f 4 (quantile 1 4 sp) +:+ "x";
    "75th percentile speedup: " +:+ format_f 4 (quantile 3 4 sp) +:+ "x";
    "Runs with speedup > 1.0x: " +:+
      str_int (bool_sum (gt_mask 1.0%float sp)) +:+ "/" +:+
      str_int num_runs +:+ " (" +:+
      format_f 1 (percentage (gt_mask 1.0%float sp)) +:+ "%)";
    "Runs with speedup > 1.5x: " +:+
      str_int (bool_sum (gt_mask 1.5%float sp)) +:+ "/" +:+
      str_int num_runs +:+ " (" +:+
      format_f 1 (percentage (gt_mask 1.5%float sp)) +:+ "%)";
    nl +:+ "Error Statistics:";
    "Median relative error: " +:+ format_f 6 (median er * hundred) +:+ "%";
    "25th percentile error: " +:+ format_f 6 (quantile 1 4 er * hundred) +:+ "%";
    "75th percentile error: " +:+ format_f 6 (quantile 3 4 er * hundred) +:+ "%"
  ]%string.
Proof.
  intros Hl Hn.
  rewrite (run_script_ok _ _ _ _ _ _ _ _ _ _ _ _ Hl Hn).
  reflexivity.
Qed.

Lemma C3_witness :
  py_int 5 = inr 5 /\
  stdout (run_script (scenario_env 0.024 0.01 0.05)).1 =
  [ "Statistics from 5 runs:";
    "Average speedup: 1.2400x";
    "Minimum speedup: 0.9000x";
    "Maximum speedup: 2.0000x";
    "Standard deviation speedup: 0.4393";
    "Average relative error: 0.024";
    "Minimum relative error: 0.01";
    "Maximum relative error: 0.05";
    "Standard deviation error: 0.0167332";
    "Plot saved as speedup_analysis.png";
    nl +:+ "Additional Statistics:";
    "Median speedup: 1.1000x";
    "25th percentile speedup: 1.0000x";
    "75th percentile speedup: 1.2000x";
    "Runs with speedup > 1.0x: 3/5 (60.0%)";
    "Runs with speedup > 1.5x: 1/5 (20.0%)";
    nl +:+ "Error Statistics:";
    "Median relative error: 2.000000%";
    "25th percentile error: 1.000000%";
    "75th percentile error: 3.000000%" ]%string.
Proof.
  split; [reflexivity|].
  unfold scenario_env.
  rewrite (C3_report_sequence _ _ _ _ _ _ _ _ _ _ _ 5
             (scenario_loads 0.024 0.01 0.05 5 ex_speedup ex_error ex_run)
             eq_refl).
  vm_compute. reflexivity.
Defined.

(** ** The format specifications *)

Lemma after_char_app_none c s t :
  after_char c s = None -> after_char c (s +:+ t) = after_char c t.
Proof.
  induction s as [|a s IH]; simpl; [reflexivity|].
  destruct (Ascii.eqb a c); [discriminate | exact IH].
Qed.

Lemma string_of_uint_no_point d :
  after_char "." (NilEmpty.string_of_uint d) = None.
Proof. induction d; simpl; auto. Qed.

Lemma str_int_no_point z : after_char "." (str_int z) = None.
Proof.
  unfold str_int, NilZero.string_of_int, NilZero.string_of_uint.
  destruct (Z.to_int z) as [d|d]; destruct d; simpl;
    auto using string_of_uint_no_point.
Qed.

Lemma digits_fixed_length k n : String.length (digits_fixed k n) = k.
Proof.
  revert n. induction k as [|k IH]; intros n; [reflexivity|].
  cbn [digits_fixed]. rewrite string_length_app, IH. cbn [String.length]. lia.
Qed.

Lemma all_digits_app s t :
  all_digits (s +:+ t) = all_digits s && all_digits t.
Proof.
  induction s as [|a s IH]; simpl; [reflexivity|].
  now rewrite IH, andb_assoc.
Qed.

Lemma digit_char_is_digit d : is_digit (digit_char d) = true.
Proof.
  unfold digit_char.
  assert (H : (Z.to_nat (d mod 10) < 10)%nat)
    by (pose proof (Z.mod_pos_bound d 10); lia).
  generalize dependent (Z.to_nat (d mod 10)). intros m Hm.
  do 10 (destruct m as [|m]; [reflexivity|]). lia.
Qed.

Lemma digits_fixed_all_digits k n : all_digits (digits_fixed k n) = true.
Proof.
  revert n. induction k as [|k IH]; intros n; [reflexivity|].
  cbn [digits_fixed]. rewrite all_digits_app, IH.
  cbn [all_digits andb]. now rewrite digit_char_is_digit.
Qed.

Lemma fixed_str_places s k v :
  decimal_places (sign_str s +:+ fixed_str (S k) v) = Some (S k).
Proof.
  unfold decimal_places, fixed_str.
  rewrite after_char_app_none by (destruct s; reflexivity).
  rewrite after_char_app_none by apply str_int_no_point.
  change (after_char "." ("." +:+ digits_fixed (S k) v))
    with (Some (digits_fixed (S k) v)).
  cbv beta iota.
  now rewrite digits_fixed_all_digits, digits_fixed_length.
Qed.

(** A finite value printed with [.{k}f], [k > 0], has exactly [k] decimal
    places. *)
Lemma format_f_places k x :
  is_finite x = true -> decimal_places (format_f (S k) x) = Some (S k).
Proof.
  unfold is_finite, format_f.
  destruct (Prim2SF x) as [s|s| |s m e]; try discriminate; intros _.
  - apply fixed_str_places.
  - destruct (mant_frac m e). apply fixed_str_places.
Qed.

(** C4, counterexample: in the end-to-end scenario with avg_error = 0.024
    the sixth print call writes "Average relative error: 0.024", which is
    not a percentage with 4 to 6 decimal places. *)
Lemma C4_counterexample :
  line (scenario_env 0.024 0.01 0.05) 5 = Some "Average relative error: 0.024" /\
  ~ errors_printed_as_percentages (scenario_env 0.024 0.01 0.05).
Proof.
  split; [vm_compute; reflexivity|].
  intros H. destruct (H 5%nat) as (s & Hs & Hp); [simpl; auto|].
  assert (E : line (scenario_env 0.024 0.01 0.05) 5
              = Some "Average relative error: 0.024") by (vm_compute; reflexivity).
  rewrite E in Hs. injection Hs as <-.
  vm_compute in Hp. discriminate Hp.
Qed.

(** C4, amended: every speedup ratio of the report (average, minimum,
    maximum, standard deviation, median, 25th and 75th percentile) is
    printed with the [.4f] specification, which gives exactly 4 decimal
    places for a finite value.  Of the error fractions, the median and the
    two percentiles are printed as percentages (the value times 100, [.6f],
    then "%"): exactly 6 decimal places.  The average, minimum, maximum and
    standard deviation of the error are printed as the raw fraction in the
    general format [g], not as a percentage. *)
Theorem C4_report_formats env rn sp er a1 a2 a3 a4 a5 a6 a7 n :
  loads env rn sp er [a1; a2; a3; a4; a5; a6; a7] ->
  py_int a7 = inr n ->
  (line env 1 = Some ("Average speedup: " +:+ format_f 4 a1 +:+ "x") /\
   line env 2 = Some ("Minimum speedup: " +:+ format_f 4 a2 +:+ "x") /\
   line env 3 = Some ("Maximum speedup: " +:+ format_f 4 a3 +:+ "x") /\
   line env 4 = Some ("Standard deviation speedup: " +:+ format_f 4 (std sp)) /\
   line env 11 = Some ("Median speedup: " +:+ format_f 4 (median sp) +:+ "x") /\
   line env 12 =
     Some ("25th percentile speedup: " +:+ format_f 4 (quantile 1 4 sp) +:+ "x") /\
   line env 13 =
     Some ("75th percentile speedup: " +:+ format_f 4 (quantile 3 4 sp) +:+ "x")) /\
  (line env 5 = Some ("Average relative error: " +:+ format_g a4) /\
   line env 6 = Some ("Minimum relative error: " +:+ format_g a5) /\
   line env 7 = Some ("Maximum relative error: " +:+ format_g a6) /\
   line env 8 = Some ("Standard deviation error: " +:+ format_g (std er))) /\
  (line env 17 =
     Some ("Median relative error: " +:+
           format_f 6 (median er * hundred) +:+ "%") /\
   line env 18 =
     Some ("25th percentile error: " +:+
           format_f 6 (quantile 1 4 er * hundred) +:+ "%") /\
   line env 19 =
     Some ("75th percentile error: " +:+
           format_f 6 (quantile 3 4 er * hundred) +:+ "%")) /\
  (forall x, is_finite x = true ->
     decimal_places (format_f 4 x) = Some 4%nat /\
     decimal_places (format_f 6 x) = Some 6%nat).
Proof.
  intros Hl Hn. unfold line.
  rewrite (run_script_ok _ _ _ _ _ _ _ _ _ _ _ _ Hl Hn).
  cbn [fst stdout report].
  split; [|split; [|split]].
  - repeat split.
  - repeat split.
  - repeat split.
  - intros x Hx. split; now apply format_f_places.
Qed.

Lemma C4_witness :
  py_int 5 = inr 5 /\
  line (scenario_env 0.024 0.01 0.05) 1 = Some "Average speedup: 1.2400x" /\
  line (scenario_env 0.024 0.01 0.05) 5 = Some "Average relative error: 0.024" /\
  line (scenario_env 0.024 0.01 0.05) 17 = Some "Median relative error: 2.000000%" /\
  decimal_places (format_f 4 1.24) = Some 4%nat.
Proof.
  split; [reflexivity|].
  destruct (C4_report_formats (scenario_env 0.024 0.01 0.05) _ _ _ _ _ _ _ _ _ _ 5
              (scenario_loads 0.024 0.01 0.05 5 ex_speedup ex_error ex_run)
              eq_refl) as ((H1 & _) & (H5 & _) & (H17 & _) & Hf).
  split; [rewrite H1; vm_compute; reflexivity|].
  split; [rewrite H5; vm_compute; reflexivity|].
  split; [rewrite H17; vm_compute; reflexivity|].
  apply (Hf 1.24%float). reflexivity.
Defined.

(** ** Binary64 rounding

    The operations of binary64 are specified in [SpecFloat] by integer
    arithmetic on mantissas.  This section derives what the statements
    about tolerances need: the result of a multiplication, a division or a
    square root of normal numbers is within [2^-53] of the exact result,
    relatively, as long as that result is in the range of the normal
    numbers. *)

Lemma pow2_pos e : (0 < pow2 e)%R.
Proof. apply powerRZ_lt. lra. Qed.

Lemma pow2_add a b : pow2 (a + b) = (pow2 a * pow2 b)%R.
Proof. apply powerRZ_add. lra. Qed.

Lemma pow2_IZR (n : Z) : 0 <= n -> pow2 n = IZR (2 ^ n).
Proof.
  intros Hn. unfold pow2. rewrite <- (Z2Nat.id n Hn) at 1.
  rewrite <- pow_powerRZ. rewrite pow_IZR. now rewrite Z2Nat.id.
Qed.

Lemma pow2_opp e : pow2 (- e) = (/ pow2 e)%R.
Proof. unfold pow2. apply powerRZ_neg'. Qed.

Lemma digits2_pos_bounds (p : positive) :
  2 ^ (Z.pos (digits2_pos p) - 1) <= Z.pos p < 2 ^ Z.pos (digits2_pos p).
Proof.
  induction p as [p IH|p IH|]; cbn [digits2_pos].
  - rewrite Pos2Z.inj_succ.
    replace (Z.succ (Z.pos (digits2_pos p)) - 1) with (Z.succ (Z.pos (digits2_pos p) - 1)) by lia.
    rewrite !Z.pow_succ_r by lia. lia.
  - rewrite Pos2Z.inj_succ.
    replace (Z.succ (Z.pos (digits2_pos p)) - 1) with (Z.succ (Z.pos (digits2_pos p) - 1)) by lia.
    rewrite !Z.pow_succ_r by lia. lia.
  - cbn. lia.
Qed.

Lemma digits2_pos_unique (p : positive) (d : Z) :
  2 ^ (d - 1) <= Z.pos p < 2 ^ d -> Z.pos (digits2_pos p) = d.
Proof.
  intros [Hl Hu]. pose proof (digits2_pos_bounds p) as [Hl' Hu'].
  assert (0 < d).
  { destruct (Z_lt_le_dec 0 d); [assumption|].
    destruct (Z.eq_dec d 0) as [->|]; [cbn in Hu; lia|].
    rewrite Z.pow_neg_r in Hu by lia. lia. }
  destruct (Z_lt_le_dec (Z.pos (digits2_pos p)) d) as [Hlt|Hge].
  - assert (2 ^ Z.pos (digits2_pos p) <= 2 ^ (d - 1)) by (apply Z.pow_le_mono_r; lia). lia.
  - destruct (Z.eq_dec (Z.pos (digits2_pos p)) d) as [|Hne]; [assumption|].
    assert (2 ^ d <= 2 ^ (Z.pos (digits2_pos p) - 1)) by (apply Z.pow_le_mono_r; lia). lia.
Qed.

Lemma iter_pos_nat {A} (f : A -> A) (p : positive) (x : A) :
  SpecFloat.iter_pos f p x = Nat.iter (Pos.to_nat p) f x.
Proof.
  revert x. induction p as [p IH|p IH|]; intros x; cbn [SpecFloat.iter_pos].
  - rewrite !IH, Pos2Nat.inj_xI.
    replace (S (2 * Pos.to_nat p))%nat
      with (Pos.to_nat p + (Pos.to_nat p + 1))%nat by lia.
    rewrite !Nat.iter_add. reflexivity.
  - rewrite !IH, Pos2Nat.inj_xO.
    replace (2 * Pos.to_nat p)%nat with (Pos.to_nat p + Pos.to_nat p)%nat by lia.
    now rewrite Nat.iter_add.
  - reflexivity.
Qed.

Lemma IZR_xI (p : positive) : IZR (Z.pos p~1) = (2 * IZR (Z.pos p) + 1)%R.
Proof. now rewrite Pos2Z.inj_xI, plus_IZR, mult_IZR. Qed.

Lemma IZR_xO (p : positive) : IZR (Z.pos p~0) = (2 * IZR (Z.pos p))%R.
Proof. now rewrite Pos2Z.inj_xO, mult_IZR. Qed.

Lemma shr_1_inbetween (mrs : shr_record) (t : R) :
  0 <= shr_m mrs ->
  inbetween (shr_m mrs) (loc_of_shr_record mrs) t ->
  0 <= shr_m (shr_1 mrs) /\
  inbetween (shr_m (shr_1 mrs)) (loc_of_shr_record (shr_1 mrs)) (t / 2).
Proof.
  destruct mrs as [m r s]. cbn [shr_m]. intros Hm Hin.
  destruct m as [|p|p]; [| |lia].
  - destruct r, s; cbn [loc_of_shr_record inbetween shr_m shr_1 orb] in *;
      split; try lia; lra.
  - destruct p as [p|p|];
      destruct r, s; cbn [loc_of_shr_record inbetween shr_m shr_1 orb] in *;
      try rewrite (IZR_xI p) in Hin; try rewrite (IZR_xO p) in Hin;
      split; try lia; lra.
Qed.

Lemma shr_iter_inbetween (k : nat) (mrs : shr_record) (t : R) :
  0 <= shr_m mrs ->
  inbetween (shr_m mrs) (loc_of_shr_record mrs) t ->
  0 <= shr_m (Nat.iter k shr_1 mrs) /\
  inbetween (shr_m (Nat.iter k shr_1 mrs))
            (loc_of_shr_record (Nat.iter k shr_1 mrs)) (t / 2 ^ k).
Proof.
  intros Hm Hin. induction k as [|k [IH1 IH2]]; cbn [Nat.iter].
  - split; [exact Hm|]. now replace (t / 2 ^ 0)%R with t by (cbn; lra).
  - destruct (shr_1_inbetween _ _ IH1 IH2) as [H1 H2]. split; [exact H1|].
    replace (t / 2 ^ S k)%R with (t / 2 ^ k / 2)%R; [exact H2|].
    cbn [pow]. field. apply pow_nonzero. lra.
Qed.

Lemma shr_record_of_loc_m m l : shr_m (shr_record_of_loc m l) = m.
Proof. now destruct l as [|[]]. Qed.

Lemma loc_of_shr_record_of_loc m l :
  loc_of_shr_record (shr_record_of_loc m l) = l.
Proof. now destruct l as [|[]]. Qed.

(** Shifting a located value right by [n] places. *)
Lemma shr_inbetween (m e n : Z) (l : location) (t : R) :
  0 <= m -> 0 <= n -> inbetween m l t ->
  let '(mrs, e') := shr (shr_record_of_loc m l) e n in
  e' = e + n /\ 0 <= shr_m mrs /\
  inbetween (shr_m mrs) (loc_of_shr_record mrs) (t * pow2 (- n)).
Proof.
  intros Hm Hn Hin. unfold shr.
  destruct n as [|p|p]; [| |lia].
  - split; [lia|]. rewrite shr_record_of_loc_m, loc_of_shr_record_of_loc.
    split; [exact Hm|]. change (- 0) with 0. change (pow2 0) with 1%R. now rewrite Rmult_1_r.
  - split; [reflexivity|]. rewrite iter_pos_nat.
    destruct (shr_iter_inbetween (Pos.to_nat p) (shr_record_of_loc m l) t) as [H1 H2].
    + now rewrite shr_record_of_loc_m.
    + now rewrite shr_record_of_loc_m, loc_of_shr_record_of_loc.
    + split; [exact H1|].
      replace (t * pow2 (- Z.pos p))%R with (t / 2 ^ Pos.to_nat p)%R; [exact H2|].
      rewrite pow2_opp. unfold pow2. rewrite <- (positive_nat_Z p), <- pow_powerRZ.
      reflexivity.
Qed.

Lemma inbetween_floor m l t : inbetween m l t -> (IZR m <= t < IZR m + 1)%R.
Proof. destruct l as [|c]; cbn; [intros ->; lra | intros [H _]; lra]. Qed.

Lemma round_nearest_even_spec m l t :
  inbetween m l t ->
  let r := round_nearest_even m l in
  (m <= r <= m + 1) /\ (Rabs (IZR r - t) <= / 2)%R.
Proof.
  intros Hin. cbv zeta. unfold round_nearest_even.
  destruct l as [|[]]; cbn [inbetween] in Hin.
  - subst t. split; [lia|]. rewrite Rminus_diag, Rabs_R0. lra.
  - destruct Hin as [H1 H2]. destruct (Z.even m).
    + split; [lia|]. rewrite Rabs_left1 by lra. lra.
    + split; [lia|]. rewrite plus_IZR. rewrite Rabs_right by lra. lra.
  - destruct Hin as [H1 H2]. split; [lia|]. rewrite Rabs_left1 by lra. lra.
  - destruct Hin as [H1 H2]. split; [lia|]. rewrite plus_IZR.
    rewrite Rabs_right by lra. lra.
Qed.

Lemma pow2_mul_opp (a b : Z) : (pow2 a * pow2 (- b))%R = pow2 (a - b).
Proof. now rewrite <- pow2_add. Qed.

Lemma pow2_1 : pow2 1 = 2%R.
Proof. unfold pow2, powerRZ. rewrite Pos2Nat.inj_1. cbn [pow]. lra. Qed.

Lemma fexp_normal (e : Z) : -1074 <= e - 53 -> fexp prec emax e = e - 53.
Proof. intros H. unfold fexp, emin, prec, emax. lia. Qed.

Lemma Zdigits2_pos (m d : Z) :
  0 < m -> Zdigits2 m = d -> 2 ^ (d - 1) <= m < 2 ^ d.
Proof.
  intros Hm <-. destruct m as [|p|p]; try lia. cbn [Zdigits2].
  apply digits2_pos_bounds.
Qed.

Lemma Zdigits2_unique (m d : Z) :
  2 ^ (d - 1) <= m < 2 ^ d -> 0 < m -> Zdigits2 m = d.
Proof.
  intros H Hm. destruct m as [|p|p]; try lia. cbn [Zdigits2].
  now apply digits2_pos_unique.
Qed.

(** Rounding to nearest even of a located value whose integer part has at
    least 53 digits, in the range of the normal numbers: the result is a
    normal number within half a unit in the last place. *)
Lemma binary_round_aux_correct sx mx ex lx t d :
  0 < mx -> inbetween mx lx t -> Zdigits2 mx = d ->
  53 <= d -> -1074 <= ex + d - 53 <= 970 ->
  exists m e,
    binary_round_aux prec emax sx mx ex lx = S754_finite sx m e /\
    2 ^ 52 <= Z.pos m < 2 ^ 53 /\
    (e = ex + d - 53 \/ e = ex + d - 52) /\
    (Rabs (IZR (Z.pos m) * pow2 e - t * pow2 ex) <= / 2 * pow2 (ex + d - 53))%R.
Proof.
  intros Hm Hin Hd Hd53 He.
  pose proof (Zdigits2_pos mx d Hm Hd) as [Hlo Hhi].
  pose proof (inbetween_floor _ _ _ Hin) as [Ht1 Ht2].
  unfold binary_round_aux, shr_fexp. rewrite Hd.
  rewrite (fexp_normal (d + ex)) by lia.
  replace (d + ex - 53 - ex) with (d - 53) by lia.
  pose proof (shr_inbetween mx ex (d - 53) lx t ltac:(lia) ltac:(lia) Hin) as Hs.
  destruct (shr (shr_record_of_loc mx lx) ex (d - 53)) as [mrs' e'].
  destruct Hs as (-> & Hm' & Hin').
  set (t' := (t * pow2 (- (d - 53)))%R) in *.
  assert (Ht' : (IZR (2 ^ 52) <= t' < IZR (2 ^ 53))%R).
  { unfold t'.
    assert (E1 : IZR (2 ^ 52) = (IZR (2 ^ (d - 1)) * pow2 (- (d - 53)))%R).
    { rewrite <- !pow2_IZR by lia. rewrite pow2_mul_opp. f_equal. lia. }
    assert (E2 : IZR (2 ^ 53) = (IZR (2 ^ d) * pow2 (- (d - 53)))%R).
    { rewrite <- !pow2_IZR by lia. rewrite pow2_mul_opp. f_equal. lia. }
    rewrite E1, E2. pose proof (pow2_pos (- (d - 53))) as Hp.
    apply IZR_le in Hlo. assert (Hhi' : (IZR mx + 1 <= IZR (2 ^ d))%R).
    { rewrite <- (plus_IZR mx 1). apply IZR_le. lia. }
    split.
    - apply Rmult_le_compat_r; lra.
    - apply Rmult_lt_compat_r; lra. }
  pose proof (inbetween_floor _ _ _ Hin') as [Hf1 Hf2].
  assert (Hm'b : 2 ^ 52 <= shr_m mrs' < 2 ^ 53).
  { split.
    - assert (2 ^ 52 < shr_m mrs' + 1); [|lia].
      apply lt_IZR. rewrite plus_IZR. lra.
    - apply lt_IZR. lra. }
  pose proof (round_nearest_even_spec _ _ _ Hin') as [Hr1 Hr2].
  set (mr := round_nearest_even (shr_m mrs') (loc_of_shr_record mrs')) in *.
  assert (Hval : (t * pow2 ex = t' * pow2 (ex + (d - 53)))%R).
  { unfold t'. rewrite Rmult_assoc, <- pow2_add. do 2 f_equal. lia. }
  destruct (Z_lt_le_dec mr (2 ^ 53)) as [Hlt|Hge].
  - rewrite (Zdigits2_unique mr 53) by lia.
    rewrite (fexp_normal (53 + (ex + (d - 53)))) by lia.
    replace (53 + (ex + (d - 53)) - 53 - (ex + (d - 53))) with 0 by lia.
    cbn [shr shr_record_of_loc shr_m].
    destruct mr as [|q|q] eqn:Emr; try lia.
    replace (ex + (d - 53) <=? emax - prec) with true
      by (symmetry; apply Z.leb_le; unfold emax, prec; lia).
    exists q, (ex + (d - 53)). split; [reflexivity|]. split; [lia|].
    split; [left; lia|].
    rewrite Hval, <- Rmult_minus_distr_r, Rabs_mult.
    rewrite (Rabs_right (pow2 _)) by (left; apply pow2_pos).
    replace (ex + d - 53) with (ex + (d - 53)) by lia.
    apply Rmult_le_compat_r; [left; apply pow2_pos | exact Hr2].
  - assert (Emr : mr = 2 ^ 53) by lia.
    rewrite (Zdigits2_unique mr 54) by (rewrite Emr; lia).
    rewrite (fexp_normal (54 + (ex + (d - 53)))) by lia.
    replace (54 + (ex + (d - 53)) - 53 - (ex + (d - 53))) with 1 by lia.
    rewrite Emr. cbn [shr shr_record_of_loc shr_m SpecFloat.iter_pos].
    change (shr_m (shr_1 {| shr_m := 2 ^ 53; shr_r := false; shr_s := false |}))
      with (Z.pos (2 ^ 52)).
    replace (ex + (d - 53) + 1 <=? emax - prec) with true
      by (symmetry; apply Z.leb_le; unfold emax, prec; lia).
    exists (2 ^ 52)%positive, (ex + (d - 53) + 1). split; [reflexivity|].
    split; [lia|]. split; [right; lia|].
    assert (Ev : (IZR (Z.pos (2 ^ 52)) * pow2 (ex + (d - 53) + 1) =
                  IZR mr * pow2 (ex + (d - 53)))%R).
    { rewrite Emr, pow2_add.
      rewrite pow2_1.
      replace (IZR (2 ^ 53)) with (IZR (Z.pos (2 ^ 52)) * 2)%R; [lra|].
      rewrite <- mult_IZR. f_equal. }
    rewrite Ev, Hval, <- Rmult_minus_distr_r, Rabs_mult.
    rewrite (Rabs_right (pow2 _)) by (left; apply pow2_pos).
    replace (ex + d - 53) with (ex + (d - 53)) by lia.
    apply Rmult_le_compat_r; [left; apply pow2_pos | exact Hr2].
Qed.

Lemma pow2_le (a b : Z) : a <= b -> (pow2 a <= pow2 b)%R.
Proof.
  intros H. replace b with (a + (b - a)) by lia. rewrite pow2_add.
  pose proof (pow2_pos a). rewrite (pow2_IZR (b - a)) by lia.
  assert (1 <= IZR (2 ^ (b - a)))%R.
  { apply IZR_le. assert (0 < 2 ^ (b - a)) by (apply Z.pow_pos_nonneg; lia). lia. }
  nra.
Qed.

Lemma Rdiv_lt_l (a b c : R) : (0 < c -> a < b * c -> a / c < b)%R.
Proof.
  intros Hc H. apply Rmult_lt_reg_r with c; [exact Hc|].
  unfold Rdiv. rewrite Rmult_assoc, Rinv_l by lra. lra.
Qed.

Lemma Rdiv_gt_l (a b c : R) : (0 < c -> b * c < a -> b < a / c)%R.
Proof.
  intros Hc H. apply Rmult_lt_reg_r with c; [exact Hc|].
  unfold Rdiv. rewrite Rmult_assoc, Rinv_l by lra. lra.
Qed.

Lemma pow2_lt_inv (a b : Z) : (pow2 a < pow2 b)%R -> a < b.
Proof.
  intros H. destruct (Z_lt_le_dec a b) as [|Hle]; [assumption|].
  apply pow2_le in Hle. lra.
Qed.

Lemma mantissa_R (m : positive) (d : Z) :
  0 < d -> 2 ^ (d - 1) <= Z.pos m < 2 ^ d ->
  (pow2 (d - 1) <= IZR (Z.pos m) < pow2 d)%R.
Proof.
  intros Hd [H1 H2]. rewrite !pow2_IZR by lia.
  split; [now apply IZR_le | now apply IZR_lt].
Qed.

(** The relative form: the error is at most [2^-53] of the value. *)
Lemma binary_round_aux_rel sx mx ex lx t d :
  0 < mx -> inbetween mx lx t -> Zdigits2 mx = d ->
  53 <= d -> -1074 <= ex + d - 53 <= 970 ->
  exists m e,
    binary_round_aux prec emax sx mx ex lx = S754_finite sx m e /\
    2 ^ 52 <= Z.pos m < 2 ^ 53 /\
    (Rabs (IZR (Z.pos m) * pow2 e - t * pow2 ex) <= pow2 (-53) * (t * pow2 ex))%R.
Proof.
  intros Hm Hin Hd Hd53 He.
  destruct (binary_round_aux_correct sx mx ex lx t d Hm Hin Hd Hd53 He)
    as (m & e & E & Hmb & _ & Herr).
  exists m, e. split; [exact E|]. split; [exact Hmb|].
  eapply Rle_trans; [exact Herr|].
  pose proof (Zdigits2_pos mx d Hm Hd) as [Hlo _].
  pose proof (inbetween_floor _ _ _ Hin) as [Ht1 _].
  apply IZR_le in Hlo. rewrite <- pow2_IZR in Hlo by lia.
  replace (/ 2 * pow2 (ex + d - 53))%R with (pow2 (-53) * (pow2 (d - 1) * pow2 ex))%R.
  - apply Rmult_le_compat_l; [left; apply pow2_pos|].
    apply Rmult_le_compat_r; [left; apply pow2_pos | lra].
  - rewrite <- !pow2_add.
    replace (ex + d - 53) with (1 + (-53 + (d - 1 + ex))) by lia.
    rewrite (pow2_add 1), pow2_1. lra.
Qed.

(** An exact value with a 53-digit integer part is returned as it is. *)
Lemma binary_round_aux_exact sx (m : positive) (e : Z) :
  2 ^ 52 <= Z.pos m < 2 ^ 53 -> -1074 <= e <= 971 ->
  binary_round_aux prec emax sx (Z.pos m) e loc_Exact = S754_finite sx m e.
Proof.
  intros Hm He. unfold binary_round_aux, shr_fexp.
  rewrite (Zdigits2_unique (Z.pos m) 53) by lia.
  rewrite (fexp_normal (53 + e)) by lia.
  replace (53 + e - 53 - e) with 0 by lia.
  cbn [shr shr_record_of_loc shr_m loc_of_shr_record round_nearest_even].
  rewrite (Zdigits2_unique (Z.pos m) 53) by lia.
  rewrite (fexp_normal (53 + e)) by lia.
  replace (53 + e - 53 - e) with 0 by lia.
  cbn [shr shr_record_of_loc shr_m].
  replace (e <=? emax - prec) with true
    by (symmetry; apply Z.leb_le; unfold emax, prec; lia).
  reflexivity.
Qed.

Lemma SF2R_finite s m e : SF2R (S754_finite s m e) = (sgn s * (IZR (Z.pos m) * pow2 e))%R.
Proof. destruct s; cbn [SF2R sgn]; lra. Qed.

Lemma sgn_xorb a b : sgn (xorb a b) = (sgn a * sgn b)%R.
Proof. destruct a, b; cbn; lra. Qed.

Lemma sgn_abs s : Rabs (sgn s) = 1%R.
Proof. destruct s; cbn [sgn]; [rewrite Rabs_left | rewrite Rabs_right]; lra. Qed.

(** *** Multiplication *)

Lemma SFmul_correct sx mx ex sy my ey :
  2 ^ 52 <= Z.pos mx < 2 ^ 53 -> 2 ^ 52 <= Z.pos my < 2 ^ 53 ->
  let v := (IZR (Z.pos mx) * pow2 ex * (IZR (Z.pos my) * pow2 ey))%R in
  (pow2 (-1022) <= v < pow2 1023)%R ->
  exists m e,
    SFmul prec emax (S754_finite sx mx ex) (S754_finite sy my ey)
      = S754_finite (xorb sx sy) m e /\
    2 ^ 52 <= Z.pos m < 2 ^ 53 /\
    (Rabs (IZR (Z.pos m) * pow2 e - v) <= pow2 (-53) * v)%R.
Proof.
  intros Hx Hy v Hv. cbn [SFmul].
  set (d := Zdigits2 (Z.pos (mx * my))).
  assert (Hp : 0 < Z.pos (mx * my)) by lia.
  pose proof (Zdigits2_pos _ d Hp eq_refl) as Hd.
  assert (Hprod : 2 ^ 104 <= Z.pos (mx * my)).
  { rewrite Pos2Z.inj_mul. change (2 ^ 104) with (2 ^ 52 * 2 ^ 52).
    apply Z.mul_le_mono_nonneg; lia. }
  assert (Hd0 : 0 < d) by (unfold d; cbn [Zdigits2]; lia).
  assert (Hd53 : 104 < d).
  { apply (Z.pow_lt_mono_r_iff 2); lia. }
  pose proof (mantissa_R _ d ltac:(lia) Hd) as [Hd1 Hd2].
  assert (Ev : v = (IZR (Z.pos (mx * my)) * pow2 (ex + ey))%R).
  { unfold v. rewrite Pos2Z.inj_mul, mult_IZR, pow2_add. ring. }
  pose proof (pow2_pos (ex + ey)) as Hpp.
  assert (He1 : -1022 < d + (ex + ey)).
  { apply pow2_lt_inv. rewrite pow2_add.
    eapply Rle_lt_trans; [apply Hv|]. rewrite Ev.
    apply Rmult_lt_compat_r; lra. }
  assert (He2 : d - 1 + (ex + ey) < 1023).
  { apply pow2_lt_inv. rewrite pow2_add.
    eapply Rle_lt_trans; [|apply Hv]. rewrite Ev.
    apply Rmult_le_compat_r; lra. }
  destruct (binary_round_aux_rel (xorb sx sy) (Z.pos (mx * my)) (ex + ey) loc_Exact
              (IZR (Z.pos (mx * my))) d Hp eq_refl eq_refl ltac:(lia) ltac:(lia))
    as (m & e & E & Hm & Herr).
  exists m, e. rewrite Ev. auto.
Qed.

(** *** Division *)

Lemma new_location_inbetween (q r my : Z) :
  0 < my -> 0 <= r < my ->
  inbetween q (new_location my r) (IZR q + IZR r / IZR my).
Proof.
  intros Hmy [Hr1 Hr2].
  assert (HR : (0 < IZR my)%R) by (apply IZR_lt; lia).
  assert (Hr2' : (IZR r < IZR my)%R) by (now apply IZR_lt).
  assert (Hx : r = 0 -> (IZR q + IZR r / IZR my = IZR q)%R).
  { intros ->. unfold Rdiv. lra. }
  assert (Hq0 : 0 < r -> (0 < IZR r / IZR my)%R).
  { intros H. apply Rdiv_lt_0_compat; [apply IZR_lt; lia | exact HR]. }
  assert (Hq1 : (IZR r / IZR my < 1)%R).
  { apply Rdiv_lt_l; [exact HR | lra]. }
  assert (Hlt : 2 * r < my -> (IZR r / IZR my < / 2)%R).
  { intros H. apply Rdiv_lt_l; [exact HR|]. apply IZR_lt in H.
    rewrite mult_IZR in H. lra. }
  assert (Hgt : my < 2 * r -> (/ 2 < IZR r / IZR my)%R).
  { intros H. apply Rdiv_gt_l; [exact HR|]. apply IZR_lt in H.
    rewrite mult_IZR in H. lra. }
  assert (Heq : 2 * r = my -> (IZR r / IZR my = / 2)%R).
  { intros H. rewrite <- H, mult_IZR. field. apply not_0_IZR. lia. }
  unfold new_location. destruct (Z.even my) eqn:Ev.
  - unfold new_location_even.
    destruct (Z.eqb_spec r 0) as [E|Hr0]; cbn [inbetween]; [now apply Hx|].
    pose proof (Hq0 ltac:(lia)).
    destruct (Z.compare_spec (2 * r) my) as [H'|H'|H'];
      (split; [lra|]);
      [rewrite (Heq H') | pose proof (Hlt H') | pose proof (Hgt H')]; lra.
  - assert (Hodd : 2 * r <> my).
    { intros H'. rewrite <- H', Z.even_mul in Ev. discriminate Ev. }
    unfold new_location_odd.
    destruct (Z.eqb_spec r 0) as [E|Hr0]; cbn [inbetween]; [now apply Hx|].
    pose proof (Hq0 ltac:(lia)).
    destruct (Z.compare_spec (2 * r + 1) my) as [H'|H'|H'];
      (split; [lra|]);
      [ pose proof (Hlt ltac:(lia)) | pose proof (Hlt ltac:(lia))
      | pose proof (Hgt ltac:(lia)) ]; lra.
Qed.

Lemma pow2_neq0 e : pow2 e <> 0%R.
Proof. pose proof (pow2_pos e). lra. Qed.

Lemma SFdiv_correct sx mx ex sy my ey :
  2 ^ 52 <= Z.pos mx < 2 ^ 53 -> 2 ^ 52 <= Z.pos my < 2 ^ 53 ->
  let v := (IZR (Z.pos mx) * pow2 ex / (IZR (Z.pos my) * pow2 ey))%R in
  (pow2 (-1021) <= v < pow2 1023)%R ->
  exists m e,
    SFdiv prec emax (S754_finite sx mx ex) (S754_finite sy my ey)
      = S754_finite (xorb sx sy) m e /\
    2 ^ 52 <= Z.pos m < 2 ^ 53 /\
    (Rabs (IZR (Z.pos m) * pow2 e - v) <= pow2 (-53) * v)%R.
Proof.
  intros Hx Hy v Hv.
  pose proof (mantissa_R mx 53 ltac:(lia) Hx) as [Ha1 Ha2].
  pose proof (mantissa_R my 53 ltac:(lia) Hy) as [Hb1 Hb2].
  change (53 - 1) with 52 in Ha1, Hb1.
  set (a := IZR (Z.pos mx)) in *. set (b := IZR (Z.pos my)) in *.
  pose proof (pow2_pos 52) as H52.
  assert (E53 : pow2 53 = (2 * pow2 52)%R)
    by (change 53 with (1 + 52); rewrite pow2_add, pow2_1; reflexivity).
  set (P := pow2 (ex - ey - 53)).
  assert (HP : (0 < P)%R) by apply pow2_pos.
  assert (Eex : pow2 ex = (P * pow2 53 * pow2 ey)%R).
  { unfold P. rewrite <- !pow2_add. f_equal. lia. }
  assert (Ev : v = (a * pow2 53 / b * P)%R).
  { unfold v. rewrite Eex. field. split; first [apply pow2_neq0 | lra]. }
  assert (Hab : (a / b < 2)%R) by (apply Rdiv_lt_l; lra).
  assert (Hex : -1021 <= ex - ey).
  { assert (-1021 < ex - ey + 1); [|lia]. apply pow2_lt_inv.
    eapply Rle_lt_trans; [apply Hv|].
    replace (pow2 (ex - ey + 1)) with (2 * (pow2 53 * P))%R.
    - rewrite Ev. replace (a * pow2 53 / b * P)%R with (a / b * (pow2 53 * P))%R
        by (field; lra).
      apply Rmult_lt_compat_r; [|exact Hab]. apply Rmult_lt_0_compat; lra.
    - unfold P. rewrite <- pow2_1, <- !pow2_add. f_equal. lia. }
  cbn [SFdiv]. unfold SFdiv_core_binary. cbv zeta.
  rewrite !(Zdigits2_unique (Z.pos mx) 53) by lia.
  rewrite !(Zdigits2_unique (Z.pos my) 53) by lia.
  rewrite !(fexp_normal (53 + ex - (53 + ey))) by lia.
  replace (53 + ex - (53 + ey) - 53) with (ex - ey - 53) by lia.
  rewrite !(Z.min_l (ex - ey - 53)) by lia.
  replace (ex - ey - (ex - ey - 53)) with 53 by lia.
  cbv iota. rewrite Z.shiftl_mul_pow2 by lia.
  pose proof (Z_div_mod (Z.pos mx * 2 ^ 53) (Z.pos my) ltac:(lia)) as Hdm.
  assert (Eq : fst (Z.div_eucl (Z.pos mx * 2 ^ 53) (Z.pos my))
               = Z.pos mx * 2 ^ 53 / Z.pos my) by reflexivity.
  destruct (Z.div_eucl (Z.pos mx * 2 ^ 53) (Z.pos my)) as [q r].
  cbn [fst] in Eq. destruct Hdm as [Hdm Hr].
  assert (Hq : 2 ^ 52 <= q < 2 ^ 54).
  { rewrite Eq. split.
    - apply Z.div_le_lower_bound; lia.
    - apply Z.div_lt_upper_bound; lia. }
  set (t := (IZR q + IZR r / IZR (Z.pos my))%R).
  pose proof (new_location_inbetween q r (Z.pos my) ltac:(lia) Hr) as Hin.
  fold t in Hin.
  assert (Et : t = (a * pow2 53 / b)%R).
  { unfold t. fold b. rewrite (pow2_IZR 53) by lia. unfold a.
    rewrite <- mult_IZR, Hdm, plus_IZR, mult_IZR. fold b. field. lra. }
  set (d := Zdigits2 q).
  pose proof (Zdigits2_pos q d ltac:(lia) eq_refl) as Hd.
  assert (Hd0 : 0 < d) by (unfold d; destruct q; cbn [Zdigits2]; lia).
  assert (Hd53 : 52 < d) by (apply (Z.pow_lt_mono_r_iff 2); lia).
  pose proof (inbetween_floor _ _ _ Hin) as [Ht1 _].
  assert (Hd2 : d - 1 + (ex - ey - 53) < 1023).
  { apply pow2_lt_inv. rewrite pow2_add. eapply Rle_lt_trans; [|apply Hv].
    rewrite Ev, <- Et. fold P. apply Rmult_le_compat_r; [lra|].
    eapply Rle_trans; [|exact Ht1]. rewrite pow2_IZR by lia. apply IZR_le. lia. }
  destruct (binary_round_aux_rel (xorb sx sy) q (ex - ey - 53)
              (new_location (Z.pos my) r) t d ltac:(lia) Hin eq_refl
              ltac:(lia) ltac:(lia)) as (m & e & E & Hm & Herr).
  exists m, e. split; [exact E|]. split; [exact Hm|].
  rewrite Ev, <- Et. exact Herr.
Qed.



Lemma Rabs_le_inv (x a : R) : (Rabs x <= a -> - a <= x <= a)%R.
Proof. unfold Rabs. destruct (Rcase_abs x); lra. Qed.

Lemma float_to_R_SF (x : float) : float_to_R x = SF2R (Prim2SF x).
Proof.
  unfold float_to_R, float_to_Q. destruct (Prim2SF x) as [s|s| |s m e];
    try (unfold Q2R; cbn; lra).
  unfold mant_frac. destruct (Z.leb_spec 0 e) as [He|He].
  - unfold Q2R. cbn [Qnum Qden Z.to_pos]. rewrite Rinv_1, Rmult_1_r.
    destruct s; cbn [SF2R]; rewrite ?opp_IZR, mult_IZR, pow2_IZR by lia; reflexivity.
  - assert (Hp : 0 < 2 ^ (- e)) by (apply Z.pow_pos_nonneg; lia).
    unfold Q2R. cbn [Qnum Qden]. rewrite Z2Pos.id by exact Hp.
    assert (Ep : pow2 e = (/ IZR (2 ^ (- e)))%R).
    { rewrite <- pow2_IZR by lia. rewrite <- pow2_opp. f_equal. lia. }
    destruct s; cbn [SF2R]; rewrite Ep;
      [change (IZR (- Z.pos m)) with (- IZR (Z.pos m))%R|]; lra.
Qed.

Lemma float_to_R_finite x s m e :
  Prim2SF x = S754_finite s m e ->
  float_to_R x = (sgn s * (IZR (Z.pos m) * pow2 e))%R.
Proof. intros E. now rewrite float_to_R_SF, E, SF2R_finite. Qed.


Lemma mantissa_pos m e : (0 < IZR (Z.pos m) * pow2 e)%R.
Proof.
  apply Rmult_lt_0_compat; [apply IZR_lt; lia | apply pow2_pos].
Qed.

Lemma sgn_factor (s : R) (a b : R) :
  Rabs s = 1%R -> (0 < b)%R ->
  Rabs (s * a - s * b) = Rabs (a - b) /\ Rabs (s * b) = b.
Proof.
  intros Hs Hb. split.
  - now rewrite <- Rmult_minus_distr_l, Rabs_mult, Hs, Rmult_1_l.
  - rewrite Rabs_mult, Hs, Rmult_1_l. apply Rabs_right. lra.
Qed.

Lemma sgn_div sx sy (a b : R) :
  b <> 0%R -> (sgn sx * a / (sgn sy * b) = sgn sx * sgn sy * (a / b))%R.
Proof. intros Hb. destruct sx, sy; cbn [sgn]; field; assumption. Qed.

Lemma sgn2_abs a b : Rabs (sgn a * sgn b) = 1%R.
Proof. rewrite Rabs_mult, !sgn_abs. lra. Qed.

(** Multiplication, division and square root of normal numbers whose exact
    result is in the range of the normal numbers: the binary64 result is
    normal and within [2^-53] of the exact one, relatively. *)
Lemma mul_float_rel (x y : float) :
  normal x -> normal y ->
  let v := (float_to_R x * float_to_R y)%R in
  (pow2 (-1022) <= Rabs v < pow2 1023)%R ->
  normal (x * y)%float /\
  (Rabs (float_to_R (x * y)%float - v) <= pow2 (-53) * Rabs v)%R.
Proof.
  intros (sx & mx & ex & Ex & Hx) (sy & my & ey & Ey & Hy) v Hv.
  unfold v in *. rewrite (float_to_R_finite _ _ _ _ Ex), (float_to_R_finite _ _ _ _ Ey) in *.
  pose proof (mantissa_pos mx ex) as Hpx. pose proof (mantissa_pos my ey) as Hpy.
  set (w := (IZR (Z.pos mx) * pow2 ex * (IZR (Z.pos my) * pow2 ey))%R) in *.
  assert (Hw : (0 < w)%R) by (apply Rmult_lt_0_compat; assumption).
  replace (sgn sx * (IZR (Z.pos mx) * pow2 ex) * (sgn sy * (IZR (Z.pos my) * pow2 ey)))%R
    with (sgn sx * sgn sy * w)%R in * by (unfold w; ring).
  destruct (sgn_factor (sgn sx * sgn sy) 0 w (sgn2_abs sx sy) Hw) as [_ Ew].
  rewrite Ew in *.
  destruct (SFmul_correct sx mx ex sy my ey Hx Hy Hv) as (m & e & E & Hm & Herr).
  assert (Ez : Prim2SF (x * y)%float = S754_finite (xorb sx sy) m e).
  { rewrite mul_spec, Ex, Ey. exact E. }
  split; [now exists (xorb sx sy), m, e|].
  rewrite (float_to_R_finite _ _ _ _ Ez), sgn_xorb.
  destruct (sgn_factor (sgn sx * sgn sy) (IZR (Z.pos m) * pow2 e) w
              (sgn2_abs sx sy) Hw) as [-> _].
  exact Herr.
Qed.

Lemma div_float_rel (x y : float) :
  normal x -> normal y ->
  let v := (float_to_R x / float_to_R y)%R in
  (pow2 (-1021) <= Rabs v < pow2 1023)%R ->
  normal (x / y)%float /\
  (Rabs (float_to_R (x / y)%float - v) <= pow2 (-53) * Rabs v)%R.
Proof.
  intros (sx & mx & ex & Ex & Hx) (sy & my & ey & Ey & Hy) v Hv.
  unfold v in *. rewrite (float_to_R_finite _ _ _ _ Ex), (float_to_R_finite _ _ _ _ Ey) in *.
  pose proof (mantissa_pos mx ex) as Hpx. pose proof (mantissa_pos my ey) as Hpy.
  set (w := (IZR (Z.pos mx) * pow2 ex / (IZR (Z.pos my) * pow2 ey))%R) in *.
  assert (Hw : (0 < w)%R) by (apply Rdiv_lt_0_compat; assumption).
  assert (Es : (sgn sx * (IZR (Z.pos mx) * pow2 ex) / (sgn sy * (IZR (Z.pos my) * pow2 ey))
                = sgn sx * sgn sy * w)%R).
  { unfold w. apply sgn_div. lra. }
  rewrite Es in *.
  destruct (sgn_factor (sgn sx * sgn sy) 0 w (sgn2_abs sx sy) Hw) as [_ Ew].
  rewrite Ew in *.
  destruct (SFdiv_correct sx mx ex sy my ey Hx Hy Hv) as (m & e & E & Hm & Herr).
  assert (Ez : Prim2SF (x / y)%float = S754_finite (xorb sx sy) m e).
  { rewrite FloatAxioms.div_spec, Ex, Ey. exact E. }
  split; [now exists (xorb sx sy), m, e|].
  rewrite (float_to_R_finite _ _ _ _ Ez), sgn_xorb.
  destruct (sgn_factor (sgn sx * sgn sy) (IZR (Z.pos m) * pow2 e) w
              (sgn2_abs sx sy) Hw) as [-> _].
  exact Herr.
Qed.


(** *** Integers below [2^53] are binary64 numbers *)

Lemma pos_iter_xO (p k : positive) :
  Z.pos (Pos.iter xO p k) = Z.pos p * 2 ^ Z.pos k.
Proof.
  rewrite (Pos.iter_swap_gen _ _ Z.pos xO (Z.mul 2)) by reflexivity.
  rewrite <- Z.shiftl_mul_pow2 by lia. reflexivity.
Qed.

Lemma float_of_Z_normal (z : Z) :
  1 <= z < 2 ^ 53 ->
  normal (float_of_Z z) /\ float_to_R (float_of_Z z) = IZR z.
Proof.
  intros Hz. unfold float_of_Z.
  destruct (Z.ltb_spec z 0) as [|_]; [lia|].
  assert (E : exists m e, Prim2SF (of_uint63 (Uint63.of_Z z)) = S754_finite false m e /\
                2 ^ 52 <= Z.pos m < 2 ^ 53 /\ (IZR (Z.pos m) * pow2 e)%R = IZR z).
  { rewrite of_uint63_spec, Uint63.of_Z_spec.
    rewrite Z.mod_small by (change Uint63Axioms.wB with (2 ^ 63); lia).
    destruct z as [|p|p]; try lia. cbn [binary_normalize]. unfold binary_round.
    pose proof (digits2_pos_bounds p) as Hd.
    set (d := Z.pos (digits2_pos p)) in *.
    assert (Hd53 : d <= 53).
    { assert (d - 1 < 53); [|lia]. apply (Z.pow_lt_mono_r_iff 2); lia. }
    rewrite (fexp_normal (d + 0)) by lia.
    unfold shl_align. replace (d + 0 - 53 - 0) with (d - 53) by lia.
    destruct (d - 53) as [|k|k] eqn:Ek; try lia.
    - assert (d = 53) by lia. subst d.
      rewrite binary_round_aux_exact by (try rewrite H in Hd; lia).
      exists p, 0. split; [reflexivity|]. split; [rewrite H in Hd; lia|].
      change (pow2 0) with 1%R. lra.
    - assert (Ek' : Z.pos k = 53 - d) by lia.
      assert (Hpow : 2 ^ (d - 1) * 2 ^ Z.pos k = 2 ^ 52).
      { rewrite <- Z.pow_add_r by lia. f_equal. lia. }
      assert (Hpow' : 2 ^ d * 2 ^ Z.pos k = 2 ^ 53).
      { rewrite <- Z.pow_add_r by lia. f_equal. lia. }
      assert (H2k : 0 < 2 ^ Z.pos k) by (apply Z.pow_pos_nonneg; lia).
      assert (Hmz : 2 ^ 52 <= Z.pos (Pos.iter xO p k) < 2 ^ 53).
      { rewrite pos_iter_xO, <- Hpow, <- Hpow'. split.
        - apply Z.mul_le_mono_nonneg_r; lia.
        - apply Z.mul_lt_mono_pos_r; lia. }
      rewrite binary_round_aux_exact by (exact Hmz || lia).
      exists (Pos.iter xO p k), (d + 0 - 53). split; [reflexivity|].
      split; [exact Hmz|].
      rewrite pos_iter_xO, mult_IZR, Rmult_assoc, <- pow2_IZR by lia.
      rewrite <- pow2_add. replace (Z.pos k + (d + 0 - 53)) with 0 by lia.
      change (pow2 0) with 1%R. lra. }
  destruct E as (m & e & E & Hm & Ev).
  split; [now exists false, m, e|].
  rewrite (float_to_R_finite _ _ _ _ E). cbn [sgn]. lra.
Qed.

(** ** The share of rows above a threshold (lines 108, 122-123) *)

Lemma bool_sum_cons (b : bool) (m : list bool) :
  bool_sum (b :: m) = (if b then 1 else 0) + bool_sum m.
Proof.
  unfold bool_sum. destruct b.
  - rewrite filter_cons_True by reflexivity. cbn [length]. lia.
  - rewrite filter_cons_False by discriminate. lia.
Qed.

Lemma bool_sum_nil : bool_sum [] = 0.
Proof. reflexivity. Qed.

Lemma bool_sum_bounds (m : list bool) : 0 <= bool_sum m <= Z.of_nat (length m).
Proof.
  induction m as [|b m IH]; [rewrite bool_sum_nil; cbn [length]; lia|].
  rewrite bool_sum_cons. cbn [length]. destruct b; lia.
Qed.

Lemma pow2_m53 : pow2 (-53) = (/ 2 ^ 53)%R.
Proof.
  change (-53) with (- (53)). rewrite pow2_opp, (pow2_IZR 53) by lia.
  f_equal. change (2 ^ 53)%Z with 9007199254740992. lra.
Qed.

Lemma normal_finite (x : float) : normal x -> is_finite x = true.
Proof. intros (s & m & e & E & _). unfold is_finite. now rewrite E. Qed.

Lemma percentage_none (m : list bool) :
  bool_sum m = 0 -> 1 <= Z.of_nat (length m) < 2 ^ 53 ->
  Prim2SF (bool_mean m) = S754_zero false /\
  Prim2SF (percentage m) = S754_zero false /\
  Prim2SF (percentage m / float_of_Z 100)%float = S754_zero false.
Proof.
  intros Hc HN.
  destruct (float_of_Z_normal _ HN) as [(s & mn & en & En & _) HNv].
  assert (Hs : s = false).
  { rewrite (float_to_R_finite _ _ _ _ En) in HNv.
    pose proof (mantissa_pos mn en). destruct s; [|reflexivity].
    cbn [sgn] in HNv. assert (0 < IZR (Z.of_nat (length m)))%R by (apply IZR_lt; lia).
    lra. }
  subst s.
  assert (E1 : Prim2SF (bool_mean m) = S754_zero false).
  { unfold bool_mean. cbn [f_div f_of_Z float_arith].
    rewrite FloatAxioms.div_spec, Hc, En. reflexivity. }
  assert (E2 : Prim2SF (percentage m) = S754_zero false).
  { unfold percentage. cbn [f_mul f_of_Z float_arith].
    rewrite mul_spec, E1. reflexivity. }
  split; [exact E1|]. split; [exact E2|].
  rewrite FloatAxioms.div_spec, E2. reflexivity.
Qed.

Lemma percentage_some (m : list bool) :
  1 <= bool_sum m -> Z.of_nat (length m) < 2 ^ 53 ->
  let w := (IZR (bool_sum m) / IZR (Z.of_nat (length m)))%R in
  let mean := float_to_R (bool_mean m) in
  let p := float_to_R (percentage m) in
  normal (bool_mean m) /\ normal (percentage m) /\
  normal (percentage m / float_of_Z 100)%float /\
  (Rabs (mean - w) <= / 2 ^ 53 * w)%R /\
  (Rabs (p - mean * 100) <= / 2 ^ 53 * (mean * 100))%R /\
  (Rabs (float_to_R (percentage m / float_of_Z 100)%float - p / 100)
     <= / 2 ^ 53 * (p / 100))%R.
Proof.
  intros Hc HN w mean p.
  pose proof (bool_sum_bounds m) as [_ HcN].
  destruct (float_of_Z_normal (bool_sum m) ltac:(lia)) as [Hnc Hvc].
  destruct (float_of_Z_normal (Z.of_nat (length m)) ltac:(lia)) as [HnN HvN].
  destruct (float_of_Z_normal 100 ltac:(lia)) as [Hn100 Hv100].
  assert (HC : (1 <= IZR (bool_sum m))%R) by (apply IZR_le; lia).
  assert (HCN : (IZR (bool_sum m) <= IZR (Z.of_nat (length m)))%R) by (apply IZR_le; lia).
  assert (HNb : (IZR (Z.of_nat (length m)) < 2 ^ 53)%R).
  { apply IZR_lt in HN. change (2 ^ 53)%Z with 9007199254740992 in HN. lra. }
  set (C := IZR (bool_sum m)) in *. set (N := IZR (Z.of_nat (length m))) in *.
  assert (Hw : (/ 2 ^ 53 < w <= 1)%R).
  { unfold w. split.
    - apply Rdiv_gt_l; lra.
    - destruct (Rle_lt_dec (C / N) 1) as [|H]; [assumption|].
      apply (Rmult_lt_compat_r N) in H; [|lra].
      unfold Rdiv in H. rewrite Rmult_assoc, Rinv_l in H by lra. lra. }
  pose proof (pow2_le (-1022) (-53) ltac:(lia)) as Hlo2.
  pose proof (pow2_le (-1021) (-54) ltac:(lia)) as Hlo1.
  pose proof (pow2_le 8 1023 ltac:(lia)) as Hhi.
  rewrite pow2_m53 in Hlo2.
  replace (pow2 (-54)) with (/ 2 ^ 54)%R in Hlo1
    by (change (-54) with (-53 + -1); rewrite pow2_add, pow2_m53;
        change (-1) with (- (1)); rewrite pow2_opp, pow2_1; lra).
  rewrite (pow2_IZR 8) in Hhi by lia. change (2 ^ 8)%Z with 256 in Hhi.
  (* the mean *)
  destruct (div_float_rel (float_of_Z (bool_sum m))
              (float_of_Z (Z.of_nat (length m))) Hnc HnN) as [Hnm Hem].
  { rewrite Hvc, HvN. fold C N w. rewrite Rabs_right by lra. lra. }
  rewrite Hvc, HvN in Hem. fold C N w in Hem.
  change (float_of_Z (bool_sum m) / float_of_Z (Z.of_nat (length m)))%float
    with (@bool_mean float _ m) in Hnm, Hem.
  fold mean in Hem. rewrite (Rabs_right w), pow2_m53 in Hem by lra.
  pose proof (Rabs_le_inv _ _ Hem) as Hem'.
  (* the percentage *)
  destruct (mul_float_rel (bool_mean m) (float_of_Z 100) Hnm Hn100) as [Hnp Hep].
  { rewrite Hv100. fold mean. rewrite Rabs_right by lra. lra. }
  rewrite Hv100 in Hep. fold mean in Hep.
  change (bool_mean m * float_of_Z 100)%float with (@percentage float _ m) in Hnp, Hep.
  fold p in Hep. rewrite (Rabs_right (mean * 100)), pow2_m53 in Hep by lra.
  pose proof (Rabs_le_inv _ _ Hep) as Hep'.
  (* the percentage over 100 *)
  destruct (div_float_rel (percentage m) (float_of_Z 100) Hnp Hn100) as [Hnq Heq].
  { rewrite Hv100. fold p. rewrite Rabs_right by lra. lra. }
  rewrite Hv100 in Heq. fold p in Heq.
  rewrite (Rabs_right (p / 100)), pow2_m53 in Heq by lra.
  auto 10.
Qed.

Lemma float_to_R_zero (x : float) s : Prim2SF x = S754_zero s -> float_to_R x = 0%R.
Proof. intros E. now rewrite float_to_R_SF, E. Qed.

(** C5: for every column of [N] rows, [1 <= N < 2^53], and every threshold,
    the count of rows above the threshold and the percentage printed with it
    are consistent on binary64.  The percentage is the mean of the
    indicator times 100, two rounded operations: it is a finite number, and
    percentage / 100 differs from count / N by at most [3 * 2^-53] of
    count / N.  The same bound holds when both quotients are themselves
    computed in binary64, as Python evaluates [count / N] and
    [percentage / 100]. *)
Theorem C5_count_consistent_with_percentage (thr : float) (xs : list float) :
  (1 <= length xs)%nat -> Z.of_nat (length xs) < 2 ^ 53 ->
  let mask := gt_mask thr xs in
  let count := bool_sum mask in
  let N := Z.of_nat (length xs) in
  let p := percentage mask in
  is_finite p = true /\
  (Rabs (float_to_R p / 100 - IZR count / IZR N)
     <= 3 / 2 ^ 53 * (IZR count / IZR N))%R /\
  is_finite (p / 100)%float = true /\
  is_finite (float_of_Z count / float_of_Z N)%float = true /\
  (Rabs (float_to_R (p / 100)%float
         - float_to_R (float_of_Z count / float_of_Z N)%float)
     <= 3 / 2 ^ 53 * float_to_R (float_of_Z count / float_of_Z N)%float)%R.
Proof.
  intros H1 HN mask count N p.
  assert (Hlen : Z.of_nat (length mask) = N)
    by (unfold mask, gt_mask; now rewrite length_map).
  pose proof (bool_sum_bounds mask) as [Hc0 _]. fold count in Hc0.
  change (float_of_Z count / float_of_Z N)%float
    with (float_of_Z (bool_sum mask) / float_of_Z N)%float.
  rewrite <- Hlen.
  change (float_of_Z (bool_sum mask) / float_of_Z (Z.of_nat (length mask)))%float
    with (@bool_mean float _ mask).
  change 100%float with (float_of_Z 100).
  destruct (Z.eq_dec count 0) as [E0|Hne].
  - destruct (percentage_none mask E0 ltac:(lia)) as (Em & Ep & Eq).
    fold p in Ep, Eq. rewrite E0.
    split; [unfold is_finite; now rewrite Ep|].
    rewrite (float_to_R_zero _ _ Em), (float_to_R_zero _ _ Ep),
      (float_to_R_zero _ _ Eq).
    unfold Rdiv. rewrite !Rmult_0_l, Rminus_diag, Rabs_R0, !Rmult_0_r.
    split; [lra|]. split; [unfold is_finite; now rewrite Eq|].
    split; [unfold is_finite; now rewrite Em | lra].
  - destruct (percentage_some mask ltac:(unfold count in *; lia) ltac:(lia))
      as (Hnm & Hnp & Hnq & Hm & Hp & Hq).
    fold p in Hnp, Hnq, Hp, Hq. fold count in Hm.
    set (w := (IZR count / IZR (Z.of_nat (length mask)))%R) in *.
    assert (Hw : (0 < w)%R).
    { unfold w. apply Rdiv_lt_0_compat; apply IZR_lt; lia. }
    split; [now apply normal_finite|].
    apply Rabs_le_inv in Hm, Hp, Hq.
    split; [apply Rabs_le; lra|].
    split; [now apply normal_finite|].
    split; [now apply normal_finite|].
    apply Rabs_le; lra.
Qed.

Lemma C5_witness :
  is_finite (percentage (gt_mask 1%float [2; 0; 0]%float)) = true /\
  (Rabs (float_to_R (percentage (gt_mask 1%float [2; 0; 0]%float)) / 100 - 1 / 3)
     <= 3 / 2 ^ 53 * (1 / 3))%R.
Proof.
  destruct (C5_count_consistent_with_percentage 1%float [2; 0; 0]%float)
    as (Hf & Hr & _).
  - cbn [length]. lia.
  - reflexivity.
  - split; [exact Hf | exact Hr].
Defined.

(** ** Pearson's coefficient on binary64 (line 107) *)


(** *** The covariance of real columns *)





Section Linear.
Variables a b : R.









End Linear.



Lemma Rdiv_le_l (a b c : R) : (0 < c -> a <= b * c -> a / c <= b)%R.
Proof.
  intros Hc H. apply Rmult_le_reg_r with c; [exact Hc|].
  unfold Rdiv. rewrite Rmult_assoc, Rinv_l by lra. lra.
Qed.






Lemma is_nan_SF (x : float) : PrimFloat.is_nan x = true -> Prim2SF x = S754_nan.
Proof.
  unfold PrimFloat.is_nan. rewrite FloatAxioms.eqb_spec.
  unfold SFeqb, SFcompare.
  destruct (Prim2SF x) as [s|s| |s m e]; try reflexivity.
  - discriminate.
  - destruct s; discriminate.
  - rewrite Z.compare_refl, Pos.compare_cont_refl. destruct s; discriminate.
Qed.
















(** ** A single Run Record *)

(** Dividing by NaN gives NaN, whatever the dividend. *)
Lemma div_nan_r (y : float) : (y / nan)%float = nan.
Proof.
  rewrite <- (SF2Prim_Prim2SF (y / nan)%float), FloatAxioms.div_spec.
  unfold SF64div. destruct (Prim2SF y); reflexivity.
Qed.

Lemma std_single_float (x : float) : std [x] = nan.
Proof.
  unfold std, nanvar, dropna.
  rewrite filter_cons, filter_nil.
  destruct (decide (negb (f_isnan x) = true)).
  - change (count [x] <=? 1) with true. cbv beta iota zeta.
    cbn [f_div f_sqrt f_nan float_arith]. rewrite div_nan_r. reflexivity.
  - change (count (@nil float) <=? 1) with true. cbv beta iota zeta.
    cbn [f_div f_sqrt f_nan float_arith]. rewrite div_nan_r. reflexivity.
Qed.

Lemma std_single_exact (x : xreal) : std [x] = None.
Proof.
  unfold std, nanvar, dropna.
  rewrite filter_cons, filter_nil.
  destruct (decide (negb (f_isnan x) = true)); cbn;
    repeat match goal with |- context [match ?o with Some _ => _ | None => _ end] =>
      destruct o end; reflexivity.
Qed.

(** C7: with exactly one Run Record, the standard deviation of the speedup
    column and of the relative_error column is NaN, whatever the row holds:
    nothing is raised, the run completes, and both lines of the report read
    "nan".  The value is a function of the input, so it is the same on
    every run. *)
Theorem C7_single_row_std env rn x y a1 a2 a3 a4 a5 a6 a7 n :
  loads env rn [x] [y] [a1; a2; a3; a4; a5; a6; a7] ->
  py_int a7 = inr n ->
  std [x] = nan /\ std [y] = nan /\
  (forall r : xreal, std [r] = None) /\
  completes env /\
  line env 4 = Some "Standard deviation speedup: nan" /\
  line env 8 = Some "Standard deviation error: nan".
Proof.
  intros Hl Hn. unfold completes, line.
  rewrite (run_script_ok _ _ _ _ _ _ _ _ _ _ _ _ Hl Hn).
  cbn [fst snd stdout]. unfold report.
  rewrite !std_single_float.
  split; [reflexivity|]. split; [reflexivity|].
  split; [exact std_single_exact|].
  split; [reflexivity|].
  split; vm_compute; reflexivity.
Qed.

Lemma C7_witness :
  py_int 1 = inr 1 /\
  completes (one_row_env 1.5 0.01) /\
  line (one_row_env 1.5 0.01) 4 = Some "Standard deviation speedup: nan" /\
  line (one_row_env 1.5 0.01) 8 = Some "Standard deviation error: nan".
Proof.
  split; [reflexivity|].
  destruct (C7_single_row_std (one_row_env 1.5 0.01) _ _ _ _ _ _ _ _ _ _ 1
              (scenario_loads 0.024 0.01 0.05 1 [1.5] [0.01] [1])%float eq_refl)
    as (_ & _ & _ & Hc & H4 & H8).
  auto.
Defined.

(** ** Load failures *)

Ltac run_step :=
  cbv [mbind script_bind mret script_ret read_csv column raise getitem
       lift_exn print savefig start metric value speedup relative_error run
       results_csv stats_csv snd fst stdout png app exit_status].

Ltac case_lookups :=
  repeat match goal with
  | |- context [dict_zip ?ms ?vs !! ?k] => destruct (dict_zip ms vs !! k)
  end;
  try match goal with
  | |- context [py_int ?f] => destruct (py_int f)
  end.

Lemma stats_loads_lookups env vals :
  stats_loads env vals ->
  exists ms vs a1 a2 a3 a4 a5 a6 a7,
    vals = [a1; a2; a3; a4; a5; a6; a7] /\
    stats_csv env = Some {| metric := Some ms; value := Some vs |} /\
    dict_zip ms vs !! "avg_speedup" = Some a1 /\
    dict_zip ms vs !! "min_speedup" = Some a2 /\
    dict_zip ms vs !! "max_speedup" = Some a3 /\
    dict_zip ms vs !! "avg_error" = Some a4 /\
    dict_zip ms vs !! "min_error" = Some a5 /\
    dict_zip ms vs !! "max_error" = Some a6 /\
    dict_zip ms vs !! "num_runs" = Some a7.
Proof.
  intros (ms & vs & Hs & Hm).
  exists ms, vs.
  unfold required_metrics in Hm. cbn [mapM] in Hm.
  repeat match type of Hm with
  | context [dict_zip ms vs !! ?k] =>
      destruct (dict_zip ms vs !! k) eqn:?; [ | discriminate Hm ]
  end.
  cbn in Hm. injection Hm as <-.
  do 7 eexists. repeat split; eauto.
Qed.

Lemma loads_stats_loads env rn sp er vals :
  loads env rn sp er vals -> stats_loads env vals.
Proof. intros (ms & vs & _ & Hs & Hm). now exists ms, vs. Qed.

(** With a results file and a complete stats mapping, the run reaches the
    conversion of [num_runs] with nothing printed. *)
Lemma run_script_int_error env r a1 a2 a3 a4 a5 a6 a7 e :
  results_csv env = Some r ->
  stats_loads env [a1; a2; a3; a4; a5; a6; a7] ->
  py_int a7 = inl e ->
  run_script env = (start, inl e).
Proof.
  intros Hr Hl Hn.
  apply stats_loads_lookups in Hl
    as (ms & vs & b1 & b2 & b3 & b4 & b5 & b6 & b7 & E & Hs &
        H1 & H2 & H3 & H4 & H5 & H6 & H7).
  injection E as -> -> -> -> -> -> ->.
  unfold run_script, main.
  rewrite Hr, Hs.
  cbv [mbind script_bind mret script_ret read_csv column raise metric value
       start getitem].
  rewrite H1, H2, H3, H4, H5, H6, H7, Hn.
  reflexivity.
Qed.

(** C8, counterexample: with a results file that has no [speedup] column
    (and a complete stats file) the run fails with [KeyError] only after
    the first four lines of the report were printed. *)
Lemma C8_counterexample :
  load_defect no_speedup_env /\
  run_script no_speedup_env =
    ({| stdout := ["Statistics from 5 runs:"; "Average speedup: 1.2400x";
                   "Minimum speedup: 0.9000x"; "Maximum speedup: 2.0000x"];
        png := None |}, inl (KeyError "speedup")) /\
  ~ load_failure_semantics.
Proof.
  assert (Hd : load_defect no_speedup_env).
  { right. right. right. eexists. split; [reflexivity|]. right. left. reflexivity. }
  assert (Hr : run_script no_speedup_env =
    ({| stdout := ["Statistics from 5 runs:"; "Average speedup: 1.2400x";
                   "Minimum speedup: 0.9000x"; "Maximum speedup: 2.0000x"];
        png := None |}, inl (KeyError "speedup")))
    by (vm_compute; reflexivity).
  split; [exact Hd|]. split; [exact Hr|].
  intros H. destruct (H _ Hd) as (_ & Hout & _).
  rewrite Hr in Hout. discriminate Hout.
Qed.

Ltac run_lookups H1 H2 H3 H4 H5 H6 H7 Hn :=
  cbv [mbind script_bind mret script_ret read_csv column raise metric value
       results_csv stats_csv speedup relative_error run start getitem];
  rewrite H1, H2, H3, H4, H5, H6, H7, Hn; reflexivity.

(** C8, amended: if either input file is missing or unreadable, or lacks an
    expected column, the run ends with an exception, no image is written and
    the exit status is 1.  The inputs are examined in a fixed order and the
    first problem decides: the results file ([OSError]), the stats file
    ([OSError]), its [metric] and its [value] column ([KeyError]), the seven
    metrics ([KeyError] for the first one missing), the conversion of
    [num_runs] (the error [int()] raises); in all these cases nothing was
    printed.  The columns of the results file are looked up only after that,
    each where it is first used: without [speedup] the run prints the first
    four lines of the report and raises [KeyError]; without
    [relative_error] it prints the first eight; without [run] it prints the
    nine lines of the first block. *)
Theorem C8_load_failures env :
  load_defect env ->
  ((exists e, (run_script env).2 = inl e) /\
   png (run_script env).1 = None /\
   exit_status (run_script env).2 = 1) /\
  (results_csv env = None ->
   run_script env = (start, inl (OSError "speedup_results.csv"))) /\
  (forall r, results_csv env = Some r -> stats_csv env = None ->
   run_script env = (start, inl (OSError "speedup_stats.csv"))) /\
  (forall r s, results_csv env = Some r -> stats_csv env = Some s ->
   metric s = None ->
   run_script env = (start, inl (KeyError "metric"))) /\
  (forall r s ms, results_csv env = Some r -> stats_csv env = Some s ->
   metric s = Some ms -> value s = None ->
   run_script env = (start, inl (KeyError "value"))) /\
  (forall r ms vs pre k post,
   results_csv env = Some r ->
   stats_csv env = Some {| metric := Some ms; value := Some vs |} ->
   required_metrics = pre ++ k :: post ->
   (forall k', k' ∈ pre -> is_Some (dict_zip ms vs !! k')) ->
   dict_zip ms vs !! k = None ->
   run_script env = (start, inl (KeyError k))) /\
  (forall r a1 a2 a3 a4 a5 a6 a7 e,
   results_csv env = Some r ->
   stats_loads env [a1; a2; a3; a4; a5; a6; a7] ->
   py_int a7 = inl e ->
   run_script env = (start, inl e)) /\
  (forall r a1 a2 a3 a4 a5 a6 a7 n,
   results_csv env = Some r ->
   stats_loads env [a1; a2; a3; a4; a5; a6; a7] ->
   py_int a7 = inr n ->
   (speedup r = None ->
    run_script env =
      ({| stdout :=
            [ "Statistics from " +:+ str_int n +:+ " runs:";
              "Average speedup: " +:+ format_f 4 a1 +:+ "x";
              "Minimum speedup: " +:+ format_f 4 a2 +:+ "x";
              "Maximum speedup: " +:+ format_f 4 a3 +:+ "x" ];
          png := None |}, inl (KeyError "speedup"))) /\
   (forall sp, speedup r = Some sp -> relative_error r = None ->
    run_script env =
      ({| stdout :=
            [ "Statistics from " +:+ str_int n +:+ " runs:";
              "Average speedup: " +:+ format_f 4 a1 +:+ "x";
              "Minimum speedup: " +:+ format_f 4 a2 +:+ "x";
              "Maximum speedup: " +:+ format_f 4 a3 +:+ "x";
              "Standard deviation speedup: " +:+ format_f 4 (std sp);
              "Average relative error: " +:+ format_g a4;
              "Minimum relative error: " +:+ format_g a5;
              "Maximum relative error: " +:+ format_g a6 ];
          png := None |}, inl (KeyError "relative_error"))) /\
   (forall sp er, speedup r = Some sp -> relative_error r = Some er ->
    run r = None ->
    run_script env =
      ({| stdout := take 9 (report a1 a2 a3 a4 a5 a6 n sp er); png := None |},
       inl (KeyError "run")))).
Proof.
  intros Hd.
  split.
  { unfold run_script, main.
    destruct env as [[[[rn|] [sp|] [er|]]|] [[[ms|] [vs|]]|]];
      run_step; case_lookups; run_step;
      try (split; [eexists; reflexivity | split; reflexivity]).
    exfalso.
    destruct Hd as [H | [H | [(s & H & [H' | H']) | (r & H & [H' | [H' | H']])]]];
      first [ discriminate H | injection H as <-; discriminate H' ]. }
  clear Hd.
  split; [intros Hr; unfold run_script, main; now rewrite Hr|].
  split; [intros r Hr Hs; unfold run_script, main; now rewrite Hr, Hs|].
  split.
  { intros r [m v] Hr Hs Hm. cbn in Hm. subst m.
    unfold run_script, main. now rewrite Hr, Hs. }
  split.
  { intros r [m v] ms Hr Hs Hm Hv. cbn in Hm, Hv. subst m v.
    unfold run_script, main. now rewrite Hr, Hs. }
  split.
  { intros r ms vs pre k post Hr Hs Hreq Hpre Hk.
    unfold required_metrics in Hreq.
    repeat (destruct pre as [|? pre]; cbn [app] in Hreq;
            [ first [ discriminate Hreq | injection Hreq as ? ?; subst ]
            | first [ discriminate Hreq | injection Hreq as ? Hreq; subst ] ]).
    all: unfold run_script, main; rewrite Hr, Hs; run_step;
      repeat (match goal with
      | |- context [dict_zip _ _ !! ?key] =>
          first [ rewrite Hk
                | let E := fresh "E" in
                  destruct (Hpre key ltac:(repeat (apply elem_of_cons; (by left) || right)))
                    as [? E]; rewrite E ]
      end; run_step);
      reflexivity. }
  split.
  { intros r a1 a2 a3 a4 a5 a6 a7 e Hr Hl Hn.
    apply stats_loads_lookups in Hl
      as (ms & vs & b1 & b2 & b3 & b4 & b5 & b6 & b7 & E & Hs &
          H1 & H2 & H3 & H4 & H5 & H6 & H7).
    injection E as -> -> -> -> -> -> ->.
    unfold run_script, main. rewrite Hr, Hs.
    run_lookups H1 H2 H3 H4 H5 H6 H7 Hn. }
  intros r a1 a2 a3 a4 a5 a6 a7 n Hr Hl Hn.
  apply stats_loads_lookups in Hl
    as (ms & vs & b1 & b2 & b3 & b4 & b5 & b6 & b7 & E & Hs &
        H1 & H2 & H3 & H4 & H5 & H6 & H7).
  injection E as -> -> -> -> -> -> ->.
  destruct r as [rn sp er]. cbn [run speedup relative_error].
  unfold run_script, main. rewrite Hr, Hs.
  split; [|split].
  - intros ->. run_lookups H1 H2 H3 H4 H5 H6 H7 Hn.
  - intros sp' -> ->. run_lookups H1 H2 H3 H4 H5 H6 H7 Hn.
  - intros sp' er' -> -> ->. run_lookups H1 H2 H3 H4 H5 H6 H7 Hn.
Qed.

Lemma C8_witness :
  load_defect no_run_env /\
  run_script no_run_env =
  ({| stdout :=
        [ "Statistics from 5 runs:"; "Average speedup: 1.2400x";
          "Minimum speedup: 0.9000x"; "Maximum speedup: 2.0000x";
          "Standard deviation speedup: 0.4393";
          "Average relative error: 0.024"; "Minimum relative error: 0.01";
          "Maximum relative error: 0.05";
          "Standard deviation error: 0.0167332" ];
      png := None |}, inl (KeyError "run")) /\
  exit_status (run_script no_run_env).2 = 1.
Proof.
  assert (Hd : load_defect no_run_env).
  { right. right. right. eexists. split; [reflexivity|]. left. reflexivity. }
  assert (Hl : stats_loads no_run_env [1.24; 0.9; 2.0; 0.024; 0.01; 0.05; 5]%float).
  { eexists _, _. split; [reflexivity|]. vm_compute. reflexivity. }
  destruct (C8_load_failures no_run_env Hd)
    as ((_ & _ & Hx) & _ & _ & _ & _ & _ & _ & H).
  destruct (H _ _ _ _ _ _ _ _ 5 eq_refl Hl eq_refl) as (_ & _ & H').
  split; [exact Hd|]. split; [|exact Hx].
  rewrite (H' ex_speedup ex_error eq_refl eq_refl eq_refl).
  vm_compute. reflexivity.
Defined.

(** ** [int()] of the loaded run count *)

Lemma mant_frac_pos m e : 0 < (mant_frac m e).1 /\ 0 < (mant_frac m e).2.
Proof.
  unfold mant_frac. destruct (0 <=? e) eqn:E; cbn [fst snd].
  - apply Z.leb_le in E. split; [|lia].
    apply Z.mul_pos_pos; [lia|]. apply Z.pow_pos_nonneg; lia.
  - apply Z.leb_gt in E. split; [lia|]. apply Z.pow_pos_nonneg; lia.
Qed.

(** [int()] of a finite float is its exact value truncated toward zero. *)
Lemma py_int_trunc (x : float) :
  is_finite x = true -> py_int x = inr (Qtrunc (float_to_Q x)).
Proof.
  unfold is_finite, py_int, float_to_Q.
  destruct (Prim2SF x) as [s|s| |s m e]; try discriminate; intros _.
  - reflexivity.
  - pose proof (mant_frac_pos m e) as [Hn Hd].
    destruct (mant_frac m e) as [n d]. cbn [fst snd] in Hn, Hd.
    f_equal. unfold Qtrunc, Qle_bool, Qceiling, Qfloor, Qopp.
    cbn [Qnum Qden]. rewrite Z2Pos.id by exact Hd.
    destruct s.
    + destruct (0 * d <=? - n * 1) eqn:E; [apply Z.leb_le in E; lia|].
      now rewrite Z.opp_involutive.
    + destruct (0 * d <=? n * 1) eqn:E; [reflexivity|].
      apply Z.leb_gt in E. lia.
Qed.

(** C9: [int()] truncates.  For every finite [num_runs] value, integer or
    not, nothing is raised: the run count is the value truncated toward
    zero, the run completes, and the header, both threshold lines and the
    annotation of the plot show that count. *)
Theorem C9_num_runs_truncated env rn sp er a1 a2 a3 a4 a5 a6 v :
  loads env rn sp er [a1; a2; a3; a4; a5; a6; v] ->
  is_finite v = true ->
  py_int v = inr (Qtrunc (float_to_Q v)) /\
  completes env /\
  line env 0 =
    Some ("Statistics from " +:+ str_int (Qtrunc (float_to_Q v)) +:+ " runs:") /\
  line env 14 =
    Some (threshold_line "1.0" 1.0%float sp (Qtrunc (float_to_Q v))) /\
  line env 15 =
    Some (threshold_line "1.5" 1.5%float sp (Qtrunc (float_to_Q v))) /\
  option_map corr_text (png (run_script env).1) =
    Some (make_corr_text sp er (Qtrunc (float_to_Q v))).
Proof.
  intros Hl Hv. pose proof (py_int_trunc v Hv) as Hn.
  unfold completes, line.
  rewrite (run_script_ok _ _ _ _ _ _ _ _ _ _ _ _ Hl Hn).
  repeat split; assumption.
Qed.

Lemma C9_witness :
  is_finite 5.7 = true /\
  py_int 5.7 = inr 5 /\
  py_int (-5.7) = inr (-5) /\
  completes fractional_env /\
  line fractional_env 0 = Some "Statistics from 5 runs:" /\
  line fractional_env 14 = Some "Runs with speedup > 1.0x: 3/5 (60.0%)".
Proof.
  split; [reflexivity|].
  destruct (C9_num_runs_truncated fractional_env _ _ _ _ _ _ _ _ _ 5.7%float
              (scenario_loads 0.024 0.01 0.05 5.7 ex_speedup ex_error ex_run)
              eq_refl) as (Hi & Hc & H0 & H14 & _).
  split; [rewrite Hi; vm_compute; reflexivity|].
  split; [vm_compute; reflexivity|].
  split; [exact Hc|].
  split; [rewrite H0 | rewrite H14]; vm_compute; reflexivity.
Defined.

(** ** The stats mapping *)

Lemma dict_fold_lookup_notin (l : list (string * float)) (d : gmap string float) k :
  k ∉ l.*1 ->
  fold_left (fun d kv => <[kv.1 := kv.2]> d) l d !! k = d !! k.
Proof.
  revert d. induction l as [|[k' v'] l IH]; intros d Hk; [reflexivity|].
  cbn [fold_left fst snd]. rewrite fmap_cons in Hk.
  apply not_elem_of_cons in Hk as [Hne Hk].
  rewrite IH by exact Hk. apply lookup_insert_ne. cbn in Hne. congruence.
Qed.

Lemma zip_fst_subset (ks : list string) (vs : list float) k :
  k ∈ (zip ks vs).*1 -> k ∈ ks.
Proof.
  revert vs. induction ks as [|k' ks IH]; intros [|v vs] H;
    try (cbn in H; now apply elem_of_nil in H).
  cbn in H. apply elem_of_cons in H as [-> | H].
  - apply elem_of_cons. now left.
  - apply elem_of_cons. right. eapply IH, H.
Qed.

Lemma zip_app_cons (ks ks' : list string) (vs vs' : list float) k v :
  length ks = length vs ->
  zip (ks ++ k :: ks') (vs ++ v :: vs') = zip ks vs ++ (k, v) :: zip ks' vs'.
Proof. intros Hlen. now rewrite zip_with_app. Qed.

(** The last row of a metric decides its value. *)
Lemma dict_zip_last ks vs k v ks' vs' :
  length ks = length vs -> k ∉ ks' ->
  dict_zip (ks ++ k :: ks') (vs ++ v :: vs') !! k = Some v.
Proof.
  intros Hlen Hk. unfold dict_zip.
  rewrite zip_app_cons by exact Hlen.
  rewrite fold_left_app. cbn [fold_left fst snd].
  rewrite dict_fold_lookup_notin.
  - apply lookup_insert_eq.
  - intros H. apply Hk. eapply zip_fst_subset, H.
Qed.

Lemma dict_fold_lookup_ext (l : list (string * float)) (d d' : gmap string float) k :
  d !! k = d' !! k ->
  fold_left (fun d kv => <[kv.1 := kv.2]> d) l d !! k =
  fold_left (fun d kv => <[kv.1 := kv.2]> d) l d' !! k.
Proof.
  revert d d'. induction l as [|[k' v'] l IH]; intros d d' H; [exact H|].
  cbn [fold_left fst snd]. apply IH.
  destruct (decide (k' = k)) as [->|Hne].
  - now rewrite !lookup_insert_eq.
  - now rewrite !lookup_insert_ne.
Qed.

(** A row of another metric does not change what [k] maps to. *)
Lemma dict_zip_other_row ks vs m v ks' vs' k :
  length ks = length vs -> k <> m ->
  dict_zip (ks ++ m :: ks') (vs ++ v :: vs') !! k =
  dict_zip (ks ++ ks') (vs ++ vs') !! k.
Proof.
  intros Hlen Hne. unfold dict_zip.
  rewrite !zip_with_app by exact Hlen.
  cbn [zip_with]. rewrite !fold_left_app. cbn [fold_left fst snd].
  apply dict_fold_lookup_ext. now apply lookup_insert_ne.
Qed.

(** The run depends on the stats rows only through the seven lookups. *)
Lemma run_script_stats_ext results ms vs ms' vs' :
  (forall k, k ∈ required_metrics ->
     dict_zip ms vs !! k = dict_zip ms' vs' !! k) ->
  run_script (stats_env results ms vs) = run_script (stats_env results ms' vs').
Proof.
  intros H. unfold run_script, main, stats_env.
  cbv [results_csv stats_csv metric value].
  destruct results as [r|]; [|reflexivity].
  cbv [mbind script_bind mret script_ret read_csv column raise start getitem].
  rewrite !(H "avg_speedup"), !(H "min_speedup"), !(H "max_speedup"),
    !(H "avg_error"), !(H "min_error"), !(H "max_error"), !(H "num_runs");
    try reflexivity;
    unfold required_metrics; repeat (apply elem_of_cons; (by left) || right).
Qed.

(** C10: the stats mapping is [dict(zip(metric, value))].  When a metric
    name occurs in several rows, the value of its last row is the one the
    mapping holds; and a row whose metric is none of the seven the script
    looks up changes nothing: the run with the row is the run without it. *)
Theorem C10_duplicates_and_extra_rows :
  (forall ks vs k v ks' vs',
     length ks = length vs -> k ∉ ks' ->
     dict_zip (ks ++ k :: ks') (vs ++ v :: vs') !! k = Some v) /\
  (forall results ms vs m v ms' vs',
     length ms = length vs -> m ∉ required_metrics ->
     run_script (stats_env results (ms ++ m :: ms') (vs ++ v :: vs')) =
     run_script (stats_env results (ms ++ ms') (vs ++ vs'))).
Proof.
  split.
  - apply dict_zip_last.
  - intros results ms vs m v ms' vs' Hlen Hm.
    apply run_script_stats_ext. intros k Hk.
    apply dict_zip_other_row; [exact Hlen|].
    intros ->. contradiction.
Qed.

Lemma C10_witness :
  dict_zip ["avg_speedup"; "num_runs"; "avg_speedup"] [1.24; 5; 3.5]%float
    !! "avg_speedup" = Some 3.5%float /\
  run_script
    (stats_env (Some (results_frame ex_run ex_speedup ex_error))
       (["avg_speedup"; "min_speedup"; "max_speedup"] ++
        "comment" :: ["avg_error"; "min_error"; "max_error"; "num_runs"])
       ([1.24; 0.9; 2.0] ++ 42 :: [0.024; 0.01; 0.05; 5])%float) =
  run_script (scenario_env 0.024 0.01 0.05) /\
  (run_script (scenario_env 0.024 0.01 0.05)).2 = inr tt.
Proof.
  split.
  - apply (proj1 C10_duplicates_and_extra_rows
             ["avg_speedup"; "num_runs"] [1.24; 5]%float "avg_speedup" 3.5%float
             [] []); [reflexivity | apply not_elem_of_nil].
  - split; [|vm_compute; reflexivity].
    rewrite (proj2 C10_duplicates_and_extra_rows); [reflexivity | reflexivity |].
    unfold required_metrics. intros H.
    repeat (apply elem_of_cons in H as [H | H]; [discriminate H|]).
    now apply elem_of_nil in H.
Defined.

(** * Further properties of the script *)

(** ** The order in which the inputs are checked (lines 12-23) *)

(** X1: the inputs are checked in a fixed order, and each defect stops the
    run at once, with nothing printed and nothing saved: first the results
    file, then the stats file, then its [metric] column, then its [value]
    column. *)
Theorem load_error_precedence env :
  (results_csv env = None ->
   run_script env = (start, inl (OSError "speedup_results.csv"))) /\
  (forall r, results_csv env = Some r -> stats_csv env = None ->
   run_script env = (start, inl (OSError "speedup_stats.csv"))) /\
  (forall r s, results_csv env = Some r -> stats_csv env = Some s ->
   metric s = None ->
   run_script env = (start, inl (KeyError "metric"))) /\
  (forall r s ms, results_csv env = Some r -> stats_csv env = Some s ->
   metric s = Some ms -> value s = None ->
   run_script env = (start, inl (KeyError "value"))).
Proof.
  unfold run_script, main.
  split; [|split; [|split]].
  - intros ->. reflexivity.
  - intros r -> ->. reflexivity.
  - intros r [m v] -> -> Hm. cbn in Hm. subst m. reflexivity.
  - intros r [m v] ms -> -> Hm Hv. cbn in Hm, Hv. subst m v. reflexivity.
Qed.

Lemma load_error_precedence_witness :
  run_script {| results_csv := None; stats_csv := None |}
    = (start, inl (OSError "speedup_results.csv")) /\
  run_script {| results_csv := Some (results_frame ex_run ex_speedup ex_error);
                stats_csv := Some {| metric := None; value := None |} |}
    = (start, inl (KeyError "metric")).
Proof.
  split.
  - apply (proj1 (load_error_precedence _)). reflexivity.
  - destruct (load_error_precedence
                {| results_csv := Some (results_frame ex_run ex_speedup ex_error);
                   stats_csv := Some {| metric := None; value := None |} |})
      as (_ & _ & H & _).
    apply (H _ _ eq_refl eq_refl). reflexivity.
Defined.

Ltac in_required :=
  unfold required_metrics; repeat (apply elem_of_cons; (by left) || right).

(** X2: when the stats mapping lacks one of the seven metrics, the run
    stops with [KeyError] for the first missing one, in the order of lines
    17-23, before anything is printed or saved. *)
Theorem missing_metric_key_error r ms vs pre k post :
  required_metrics = pre ++ k :: post ->
  (forall k', k' ∈ pre -> is_Some (dict_zip ms vs !! k')) ->
  dict_zip ms vs !! k = None ->
  run_script (stats_env (Some r) ms vs) = (start, inl (KeyError k)).
Proof.
  intros Hreq Hpre Hk.
  assert (Hin : forall k', k' ∈ pre -> k' ∈ required_metrics)
    by (intros k' H; rewrite Hreq; apply elem_of_app; now left).
  clear Hin. unfold required_metrics in Hreq.
  repeat (destruct pre as [|? pre]; cbn [app] in Hreq;
          [ first [ discriminate Hreq | injection Hreq as ? ?; subst ]
          | first [ discriminate Hreq | injection Hreq as ? Hreq; subst ] ]).
  all: unfold run_script, main, stats_env; run_step;
    repeat (match goal with
    | |- context [dict_zip _ _ !! ?key] =>
        first [ rewrite Hk
              | let E := fresh "E" in
                destruct (Hpre key ltac:(repeat (apply elem_of_cons; (by left) || right)))
                  as [? E]; rewrite E ]
    end; run_step);
    reflexivity.
Qed.

Lemma missing_metric_key_error_witness :
  run_script no_max_error_env = (start, inl (KeyError "max_error")).
Proof.
  apply (missing_metric_key_error _ _ _
           ["avg_speedup"; "min_speedup"; "max_speedup"; "avg_error"; "min_error"]
           "max_error" ["num_runs"]).
  - reflexivity.
  - intros k' Hk'.
    repeat (apply elem_of_cons in Hk' as [-> | Hk']; [vm_compute; eauto|]).
    now apply elem_of_nil in Hk'.
  - vm_compute. reflexivity.
Defined.

(** X3: a [num_runs] value that is NaN or infinite stops the run at the
    conversion on line 23, before anything is printed or saved: NaN with
    [ValueError], an infinity with [OverflowError]. *)
Theorem num_runs_not_finite env rn sp er a1 a2 a3 a4 a5 a6 v :
  loads env rn sp er [a1; a2; a3; a4; a5; a6; v] ->
  is_finite v = false ->
  (Prim2SF v = S754_nan /\
   run_script env =
     (start, inl (ValueError "cannot convert float NaN to integer"))) \/
  ((exists s, Prim2SF v = S754_infinity s) /\
   run_script env =
     (start, inl (OverflowError "cannot convert float infinity to integer"))).
Proof.
  intros Hl Hv.
  assert (Hr : results_csv env = Some (results_frame rn sp er))
    by (destruct Hl as (? & ? & Hr & _); exact Hr).
  apply loads_stats_loads in Hl.
  unfold is_finite in Hv.
  destruct (Prim2SF v) as [s|s| |s m e] eqn:E; try discriminate Hv.
  - right. split; [now exists s|].
    apply (run_script_int_error _ _ _ _ _ _ _ _ _ _ Hr Hl).
    unfold py_int. now rewrite E.
  - left. split; [reflexivity|].
    apply (run_script_int_error _ _ _ _ _ _ _ _ _ _ Hr Hl).
    unfold py_int. now rewrite E.
Qed.

Lemma num_runs_not_finite_witness :
  run_script nan_runs_env =
    (start, inl (ValueError "cannot convert float NaN to integer")) /\
  run_script inf_runs_env =
    (start, inl (OverflowError "cannot convert float infinity to integer")).
Proof.
  split.
  - destruct (num_runs_not_finite nan_runs_env _ _ _ _ _ _ _ _ _ nan
                (scenario_loads 0.024 0.01 0.05 nan ex_speedup ex_error ex_run)
                eq_refl) as [[_ H] | [[s Hs] _]]; [exact H | discriminate Hs].
  - destruct (num_runs_not_finite inf_runs_env _ _ _ _ _ _ _ _ _ infinity
                (scenario_loads 0.024 0.01 0.05 infinity ex_speedup ex_error ex_run)
                eq_refl) as [[Hs _] | [_ H]]; [discriminate Hs | exact H].
Defined.

(** ** What a run leaves behind (lines 25-33, 112-127) *)

Ltac solve_outcome :=
  unfold completes; cbn [fst snd stdout png length];
  repeat split; intros;
  try reflexivity; try discriminate; try (eexists; reflexivity); try lia;
  try match goal with
      | H : is_Some None |- _ => destruct H as [? H]; discriminate H
      | H : exists _, inr _ = inl _ |- _ => destruct H as [? H]; discriminate H
      end.

(** X4: the image is saved exactly when the run completes, and exactly then
    all twenty print calls were made; a run that fails saves no image and
    stops within the first print block (at most nine lines). *)
Theorem image_saved_iff_completes env :
  (completes env <-> is_Some (png (run_script env).1)) /\
  (completes env <-> length (stdout (run_script env).1) = 20%nat) /\
  ((exists e, (run_script env).2 = inl e) ->
   png (run_script env).1 = None /\
   (length (stdout (run_script env).1) <= 9)%nat).
Proof.
  unfold completes, run_script, main.
  destruct env as [[[[rn|] [sp|] [er|]]|] [[[ms|] [vs|]]|]];
    run_step; case_lookups; run_step; solve_outcome.
Qed.

Lemma image_saved_iff_completes_witness :
  png (run_script no_speedup_env).1 = None /\
  (length (stdout (run_script no_speedup_env).1) <= 9)%nat /\
  is_Some (png (run_script (scenario_env 0.024 0.01 0.05)).1).
Proof.
  destruct (image_saved_iff_completes no_speedup_env) as (_ & _ & H).
  destruct H as [Hp Hl]; [eexists; vm_compute; reflexivity|].
  split; [exact Hp|]. split; [exact Hl|].
  apply (proj1 (image_saved_iff_completes (scenario_env 0.024 0.01 0.05))).
  vm_compute. reflexivity.
Defined.

Lemma loads_same_results env env' rn sp er vals rn' sp' er' vals' :
  results_csv env = results_csv env' ->
  loads env rn sp er vals -> loads env' rn' sp' er' vals' ->
  rn = rn' /\ sp = sp' /\ er = er'.
Proof.
  intros E (ms & vs & Hr & _) (ms' & vs' & Hr' & _).
  rewrite E, Hr' in Hr. now injection Hr as <- <- <-.
Qed.

(** X5: the lines that show the loaded summary values (run count, average,
    minimum and maximum of speedup and of error) do not look at the Run
    Records: two completed runs on the same stats file print them alike,
    whatever the results files hold. *)
Theorem loaded_lines_ignore_results env env' i :
  stats_csv env = stats_csv env' ->
  completes env -> completes env' ->
  In i loaded_calls ->
  line env i = line env' i.
Proof.
  intros E Hc Hc' Hi.
  apply completes_loads in Hc
    as (rn & sp & er & a1 & a2 & a3 & a4 & a5 & a6 & a7 & n & Hl & Hn).
  apply completes_loads in Hc'
    as (rn' & sp' & er' & b1 & b2 & b3 & b4 & b5 & b6 & b7 & n' & Hl' & Hn').
  pose proof (loads_same_stats _ _ _ _ _ _ _ _ _ _ E Hl Hl') as Ev.
  injection Ev as <- <- <- <- <- <- <-.
  rewrite Hn in Hn'. injection Hn' as <-.
  unfold line.
  rewrite (run_script_ok _ _ _ _ _ _ _ _ _ _ _ _ Hl Hn).
  rewrite (run_script_ok _ _ _ _ _ _ _ _ _ _ _ _ Hl' Hn).
  unfold loaded_calls in Hi. cbn [In] in Hi.
  repeat (destruct Hi as [<- | Hi]; [reflexivity|]). contradiction.
Qed.

Lemma loaded_lines_ignore_results_witness :
  line (scenario_env 0.024 0.01 0.05) 2 =
  line {| results_csv := Some (results_frame [1; 2] [1.0; 3.0] [0.01; 0.02])%float;
          stats_csv := stats_csv (scenario_env 0.024 0.01 0.05) |} 2 /\
  line (scenario_env 0.024 0.01 0.05) 2 = Some "Minimum speedup: 0.9000x".
Proof.
  split; [|vm_compute; reflexivity].
  apply loaded_lines_ignore_results.
  - reflexivity.
  - vm_compute. reflexivity.
  - vm_compute. reflexivity.
  - cbn. tauto.
Defined.

(** X6: the lines that show statistics of the Run Records (standard
    deviations, medians, percentiles) do not look at the stats file: two
    completed runs on the same results file print them alike, whatever the
    stats files hold. *)
Theorem derived_lines_ignore_stats env env' i :
  results_csv env = results_csv env' ->
  completes env -> completes env' ->
  In i derived_calls ->
  line env i = line env' i.
Proof.
  intros E Hc Hc' Hi.
  apply completes_loads in Hc
    as (rn & sp & er & a1 & a2 & a3 & a4 & a5 & a6 & a7 & n & Hl & Hn).
  apply completes_loads in Hc'
    as (rn' & sp' & er' & b1 & b2 & b3 & b4 & b5 & b6 & b7 & n' & Hl' & Hn').
  destruct (loads_same_results _ _ _ _ _ _ _ _ _ _ E Hl Hl') as (<- & <- & <-).
  unfold line.
  rewrite (run_script_ok _ _ _ _ _ _ _ _ _ _ _ _ Hl Hn).
  rewrite (run_script_ok _ _ _ _ _ _ _ _ _ _ _ _ Hl' Hn').
  unfold derived_calls in Hi. cbn [In] in Hi.
  repeat (destruct Hi as [<- | Hi]; [reflexivity|]). contradiction.
Qed.

Lemma derived_lines_ignore_stats_witness :
  line (scenario_env 0.024 0.01 0.05) 11 = line mismatch_env 11 /\
  line mismatch_env 11 = Some "Median speedup: 1.1000x".
Proof.
  split; [|vm_compute; reflexivity].
  apply derived_lines_ignore_stats.
  - reflexivity.
  - vm_compute. reflexivity.
  - vm_compute. reflexivity.
  - cbn. tauto.
Defined.

(** X7: the [run] column feeds the time series of the first panel and
    nothing else: with another [run] column the outcome, the printed report
    and every other part of the figure are the same. *)
Theorem run_column_only_in_time_series stats rn rn' sp er :
  let out := run_script {| results_csv := Some (results_frame rn sp er);
                           stats_csv := stats |} in
  let out' := run_script {| results_csv := Some (results_frame rn' sp er);
                            stats_csv := stats |} in
  out.2 = out'.2 /\
  stdout out.1 = stdout out'.1 /\
  option_map figure_but_time_series (png out.1) =
  option_map figure_but_time_series (png out'.1).
Proof.
  cbv zeta. unfold run_script, main, results_frame.
  destruct stats as [[[ms|] [vs|]]|];
    run_step; case_lookups; run_step; repeat split; reflexivity.
Qed.

(** X8: the columns of the results file are looked up where they are first
    used.  With a complete stats mapping, a results file without [speedup]
    stops the run after four lines, one without [relative_error] after
    eight, one without [run] after the nine lines of the first block; each
    time with [KeyError] for that column and no image. *)
Theorem missing_results_column_outcome env r a1 a2 a3 a4 a5 a6 a7 n :
  results_csv env = Some r ->
  stats_loads env [a1; a2; a3; a4; a5; a6; a7] ->
  py_int a7 = inr n ->
  (speedup r = None ->
   run_script env =
     ({| stdout :=
           [ "Statistics from " +:+ str_int n +:+ " runs:";
             "Average speedup: " +:+ format_f 4 a1 +:+ "x";
             "Minimum speedup: " +:+ format_f 4 a2 +:+ "x";
             "Maximum speedup: " +:+ format_f 4 a3 +:+ "x" ];
         png := None |}, inl (KeyError "speedup"))) /\
  (forall sp, speedup r = Some sp -> relative_error r = None ->
   run_script env =
     ({| stdout :=
           [ "Statistics from " +:+ str_int n +:+ " runs:";
             "Average speedup: " +:+ format_f 4 a1 +:+ "x";
             "Minimum speedup: " +:+ format_f 4 a2 +:+ "x";
             "Maximum speedup: " +:+ format_f 4 a3 +:+ "x";
             "Standard deviation speedup: " +:+ format_f 4 (std sp);
             "Average relative error: " +:+ format_g a4;
             "Minimum relative error: " +:+ format_g a5;
             "Maximum relative error: " +:+ format_g a6 ];
         png := None |}, inl (KeyError "relative_error"))) /\
  (forall sp er, speedup r = Some sp -> relative_error r = Some er ->
   run r = None ->
   run_script env =
     ({| stdout := take 9 (report a1 a2 a3 a4 a5 a6 n sp er); png := None |},
      inl (KeyError "run"))).
Proof.
  intros Hr Hl Hn.
  apply stats_loads_lookups in Hl
    as (ms & vs & b1 & b2 & b3 & b4 & b5 & b6 & b7 & E & Hs &
        H1 & H2 & H3 & H4 & H5 & H6 & H7).
  injection E as -> -> -> -> -> -> ->.
  assert (Hrun : forall rn sp er, r = {| run := rn; speedup := sp;
                                        relative_error := er |} ->
    run_script env =
    main {| results_csv := Some {| run := rn; speedup := sp;
                                   relative_error := er |};
            stats_csv := Some {| metric := Some ms; value := Some vs |} |} start).
  { intros rn sp er ->. unfold run_script, main. now rewrite Hr, Hs. }
  destruct r as [rn sp er]. cbn [run speedup relative_error].
  rewrite (Hrun rn sp er eq_refl). unfold main.
  split; [|split].
  - intros ->.
    cbv [mbind script_bind mret script_ret read_csv column raise metric value
         results_csv stats_csv speedup relative_error run start getitem].
    rewrite H1, H2, H3, H4, H5, H6, H7, Hn. reflexivity.
  - intros sp' -> ->.
    cbv [mbind script_bind mret script_ret read_csv column raise metric value
         results_csv stats_csv speedup relative_error run start getitem].
    rewrite H1, H2, H3, H4, H5, H6, H7, Hn. reflexivity.
  - intros sp' er' -> -> ->.
    cbv [mbind script_bind mret script_ret read_csv column raise metric value
         results_csv stats_csv speedup relative_error run start getitem].
    rewrite H1, H2, H3, H4, H5, H6, H7, Hn. reflexivity.
Qed.

Lemma missing_results_column_outcome_witness :
  run_script no_run_env =
  ({| stdout :=
        [ "Statistics from 5 runs:"; "Average speedup: 1.2400x";
          "Minimum speedup: 0.9000x"; "Maximum speedup: 2.0000x";
          "Standard deviation speedup: 0.4393";
          "Average relative error: 0.024"; "Minimum relative error: 0.01";
          "Maximum relative error: 0.05";
          "Standard deviation error: 0.0167332" ];
      png := None |}, inl (KeyError "run")).
Proof.
  assert (Hl : stats_loads no_run_env [1.24; 0.9; 2.0; 0.024; 0.01; 0.05; 5]%float).
  { eexists _, _. split; [reflexivity|]. vm_compute. reflexivity. }
  destruct (missing_results_column_outcome no_run_env _ _ _ _ _ _ _ _ 5
              eq_refl Hl eq_refl) as (_ & _ & H).
  rewrite (H ex_speedup ex_error eq_refl eq_refl eq_refl).
  vm_compute. reflexivity.
Defined.

(** * Further properties of the reductions *)

(** ** Threshold counts (lines 108, 122-123) *)

Lemma bool_sum_mono {A} (f g : A -> bool) (l : list A) :
  (forall x, f x = true -> g x = true) ->
  bool_sum (map f l) <= bool_sum (map g l).
Proof.
  intros H. induction l as [|x l IH]; [reflexivity|].
  cbn [map]. rewrite !bool_sum_cons.
  destruct (f x) eqn:E; [rewrite (H x E); lia | destruct (g x); lia].
Qed.

(** In binary64, a value above 1.5 is above 1.0. *)
Lemma above_15_above_10 (x : float) :
  (1.5 <? x)%float = true -> (1.0 <? x)%float = true.
Proof.
  rewrite !ltb_spec.
  change (Prim2SF 1.5) with (S754_finite false 6755399441055744 (-52)).
  change (Prim2SF 1.0) with (S754_finite false 4503599627370496 (-52)).
  unfold SFltb, SFcompare.
  destruct (Prim2SF x) as [s|s| |s m e]; try discriminate; try (intros H; exact H).
  destruct s; [discriminate|].
  destruct (-52 ?= e); try discriminate; try reflexivity.
  change (Pos.compare_cont Eq 6755399441055744 m)
    with (Pos.compare 6755399441055744 m).
  change (Pos.compare_cont Eq 4503599627370496 m)
    with (Pos.compare 4503599627370496 m).
  destruct (Pos.compare 6755399441055744 m) eqn:E; try discriminate. intros _.
  apply Pos.compare_lt_iff in E.
  assert (E' : (4503599627370496 < m)%positive)
    by (eapply Pos.lt_trans; [|exact E]; reflexivity).
  apply Pos.compare_lt_iff in E'. now rewrite E'.
Qed.

(** X9: on binary64 columns, the count of runs above 1.5 never exceeds the
    count of runs above 1.0, and neither exceeds the number of rows. *)
Theorem threshold_counts_ordered (sp : list float) :
  0 <= bool_sum (gt_mask 1.5%float sp) /\
  bool_sum (gt_mask 1.5%float sp) <= bool_sum (gt_mask 1.0%float sp) /\
  bool_sum (gt_mask 1.0%float sp) <= Z.of_nat (length sp).
Proof.
  split; [apply bool_sum_bounds|]. split.
  - unfold gt_mask. apply bool_sum_mono. intros x. apply above_15_above_10.
  - pose proof (bool_sum_bounds (gt_mask 1.0%float sp)) as H.
    unfold gt_mask in *. rewrite length_map in H. lia.
Qed.

(** X10: a threshold count does not depend on the order of the rows, for
    either arithmetic. *)
Theorem threshold_count_ignores_row_order {F} `{Arith F} (thr : F)
    (xs ys : list F) :
  xs ≡ₚ ys ->
  bool_sum (gt_mask thr xs) = bool_sum (gt_mask thr ys).
Proof.
  intros Hp. unfold bool_sum, gt_mask. f_equal.
  apply Permutation_length. now rewrite Hp.
Qed.

Lemma threshold_count_ignores_row_order_witness :
  bool_sum (gt_mask 1.0%float [2.0; 0.9; 1.2; 1.0; 1.1]%float) = 3.
Proof.
  rewrite (threshold_count_ignores_row_order 1.0%float
             [2.0; 0.9; 1.2; 1.0; 1.1]%float ex_speedup).
  - vm_compute. reflexivity.
  - unfold ex_speedup.
    apply (Permutation_trans
             (l' := [0.9; 2.0; 1.2; 1.0; 1.1]%float)); [apply perm_swap|].
    apply perm_skip.
    apply (Permutation_trans
             (l' := [1.2; 2.0; 1.0; 1.1]%float)); [apply perm_swap|].
    apply (Permutation_trans
             (l' := [1.2; 1.0; 2.0; 1.1]%float)); [apply perm_skip, perm_swap|].
    apply (Permutation_trans
             (l' := [1.0; 1.2; 2.0; 1.1]%float)); [apply perm_swap|].
    apply perm_skip.
    apply (Permutation_trans
             (l' := [1.2; 1.1; 2.0]%float)); [apply perm_skip, perm_swap|].
    apply (Permutation_trans
             (l' := [1.1; 1.2; 2.0]%float)); [apply perm_swap|].
    reflexivity.
Defined.

(** ** The correlation coefficient (line 107) *)

Lemma clip_float_bounds (x : float) :
  (clip x <? -1)%float = false /\ (1 <? clip x)%float = false.
Proof.
  unfold clip. cbn [f_ltb f_of_Z float_arith].
  change (float_of_Z (-1)) with (-1)%float.
  change (float_of_Z 1) with 1%float.
  destruct (x <? -1)%float eqn:E1; [split; reflexivity|].
  destruct (1 <? x)%float eqn:E2; [split; reflexivity|].
  split; assumption.
Qed.

Lemma clip_exact_bounds (x : xreal) (r : R) :
  clip x = Some r -> (-1 <= r <= 1)%R.
Proof.
  unfold clip. cbn [f_ltb f_of_Z xreal_arith].
  destruct x as [a|]; cbn [xr_ltb]; [|discriminate].
  destruct (Rlt_dec a (-1)); [intros [= <-]; lra|].
  destruct (Rlt_dec 1 a); intros [= <-]; lra.
Qed.

(** X11: the coefficient [corr] returns is never below -1 and never above
    1: on binary64 whatever the columns hold (it may be NaN), and in exact
    arithmetic whenever it is a number. *)
Theorem corr_within_bounds :
  (forall xs ys : list float,
     (corr xs ys <? -1)%float = false /\ (1 <? corr xs ys)%float = false) /\
  (forall (xs ys : list xreal) (r : R),
     corr xs ys = Some r -> (-1 <= r <= 1)%R).
Proof.
  split.
  - intros xs ys. unfold corr.
    destruct (filter _ (zip xs ys)); [split; reflexivity|].
    unfold corrcoef. apply clip_float_bounds.
  - intros xs ys r. unfold corr.
    destruct (filter _ (zip xs ys)); [discriminate|].
    unfold corrcoef. apply clip_exact_bounds.
Qed.

Lemma corr_within_bounds_witness :
  (corr ex_speedup ex_error <? -1)%float = false /\
  (1 <? corr ex_speedup ex_error)%float = false.
Proof. apply (proj1 corr_within_bounds ex_speedup ex_error). Defined.

(** ** The stats mapping (line 16) *)

Lemma dict_fold_list_to_map (l : list (string * float)) :
  fold_left (fun d kv => <[kv.1 := kv.2]> d) l (∅ : gmap string float)
  = list_to_map (reverse l).
Proof.
  induction l as [|[k v] l IH] using rev_ind; [reflexivity|].
  rewrite fold_left_app, reverse_snoc, list_to_map_cons. cbn [fold_left fst snd].
  now rewrite IH.
Qed.

Lemma dict_zip_rows (rows : list (string * float)) :
  dict_zip (rows.*1) (rows.*2) = list_to_map (reverse rows).
Proof. unfold dict_zip. now rewrite zip_fst_snd, dict_fold_list_to_map. Qed.

(** X19: looking a metric up in the stats mapping fails exactly when no row
    has that name; and when the names are all different, the mapping holds
    exactly the rows of the file. *)
Theorem stats_mapping_lookup (rows : list (string * float)) :
  (forall k, dict_zip (rows.*1) (rows.*2) !! k = None <-> k ∉ rows.*1) /\
  (NoDup (rows.*1) ->
   forall k v, dict_zip (rows.*1) (rows.*2) !! k = Some v <-> (k, v) ∈ rows).
Proof.
  rewrite dict_zip_rows. split.
  - intros k. rewrite <- not_elem_of_list_to_map, fmap_reverse.
    now rewrite elem_of_reverse.
  - intros Hnd k v. rewrite <- elem_of_list_to_map.
    + now rewrite elem_of_reverse.
    + now rewrite fmap_reverse, reverse_Permutation.
Qed.

Lemma stats_mapping_lookup_witness :
  dict_zip ["avg_speedup"; "num_runs"] [1.24; 5]%float !! "num_runs"
    = Some 5%float /\
  dict_zip ["avg_speedup"; "num_runs"] [1.24; 5]%float !! "max_error" = None.
Proof.
  destruct (stats_mapping_lookup [("avg_speedup", 1.24); ("num_runs", 5)]%float)
    as [Hnone Hsome].
  split.
  - apply Hsome.
    + apply (bool_decide_unpack _). vm_compute. exact I.
    + apply elem_of_cons. right. apply elem_of_cons. now left.
  - apply Hnone. cbn. intros H.
    repeat (apply elem_of_cons in H as [H | H]; [discriminate H|]).
    now apply elem_of_nil in H.
Defined.

(** X20: when the metric names of the stats file are all different, the
    order of its rows does not matter: the run is the same for every
    reordering. *)
Theorem stats_row_order_irrelevant results (rows rows' : list (string * float)) :
  NoDup (rows.*1) -> rows ≡ₚ rows' ->
  run_script (stats_env results (rows.*1) (rows.*2)) =
  run_script (stats_env results (rows'.*1) (rows'.*2)).
Proof.
  intros Hnd Hp. apply run_script_stats_ext. intros k _.
  rewrite !dict_zip_rows. f_equal. apply list_to_map_proper.
  - now rewrite fmap_reverse, reverse_Permutation.
  - now rewrite !reverse_Permutation.
Qed.

Lemma stats_row_order_irrelevant_witness :
  run_script
    (stats_env (Some (results_frame ex_run ex_speedup ex_error))
       ["min_speedup"; "avg_speedup"; "max_speedup"; "avg_error"; "min_error";
        "max_error"; "num_runs"]
       [0.9; 1.24; 2.0; 0.024; 0.01; 0.05; 5]%float) =
  run_script (scenario_env 0.024 0.01 0.05).
Proof.
  apply (stats_row_order_irrelevant _
           (("min_speedup", 0.9%float) :: ("avg_speedup", 1.24%float) ::
            skipn 2 (ex_stats 0.024 0.01 0.05 5))
           (ex_stats 0.024 0.01 0.05 5)).
  - apply (bool_decide_unpack _). vm_compute. exact I.
  - apply perm_swap.
Defined.

(** ** Columns without a valid number *)

Lemma ltb_nan_r (t x : float) :
  PrimFloat.is_nan x = true -> (t <? x)%float = false.
Proof.
  intros Hx. rewrite ltb_spec, (is_nan_SF x Hx).
  unfold SFltb, SFcompare. destruct (Prim2SF t) as [s|s| |s m e]; reflexivity.
Qed.

Lemma dropna_all_nan (xs : list float) :
  Forall (fun x => PrimFloat.is_nan x = true) xs -> dropna xs = [].
Proof.
  unfold dropna. induction 1 as [|x xs Hx _ IH]; [reflexivity|].
  rewrite filter_cons_False; [exact IH|].
  cbn [f_isnan float_arith]. rewrite Hx. discriminate.
Qed.

(** X21: a binary64 column without a single valid number (empty, or NaN in
    every row) gives NaN for its median, its quantiles, its standard
    deviation and its correlation with any column, and 0 for every
    threshold count. *)
Theorem column_without_numbers (xs : list float) :
  Forall (fun x => PrimFloat.is_nan x = true) xs ->
  median xs = nan /\
  (forall qn qd, quantile qn qd xs = nan) /\
  std xs = nan /\
  (forall ys, corr xs ys = nan) /\
  (forall thr, bool_sum (gt_mask thr xs) = 0).
Proof.
  intros Hx. pose proof (dropna_all_nan xs Hx) as Hd.
  split; [unfold median; now rewrite Hd|].
  split; [intros qn qd; unfold quantile; now rewrite Hd|].
  split.
  { unfold std, nanvar. rewrite Hd.
    change (count (@nil float) <=? 1) with true. cbv beta iota zeta.
    cbn [f_div f_sqrt f_nan float_arith]. rewrite div_nan_r. reflexivity. }
  split.
  - intros ys. unfold corr.
    assert (E : filter (fun p : float * float =>
                  negb (f_isnan p.1) && negb (f_isnan p.2) = true) (zip xs ys)
                = []).
    { clear Hd. revert ys. induction Hx as [|x xs Hx' _ IH]; intros [|y ys];
        try reflexivity.
      cbn [zip_with]. rewrite filter_cons_False; [apply IH|].
      cbn [fst snd f_isnan float_arith]. rewrite Hx'. discriminate. }
    now rewrite E.
  - intros thr. clear Hd. induction Hx as [|x xs Hx' _ IH]; [reflexivity|].
    unfold gt_mask in *. cbn [map]. rewrite bool_sum_cons.
    cbn [f_ltb float_arith]. rewrite (ltb_nan_r thr x Hx'). exact IH.
Qed.

Lemma column_without_numbers_witness :
  median [nan; nan]%float = nan /\ std [nan; nan]%float = nan /\
  bool_sum (gt_mask 1.0%float [nan; nan]%float) = 0.
Proof.
  destruct (column_without_numbers [nan; nan]%float) as (Hm & _ & Hs & _ & Hc).
  - repeat constructor.
  - auto.
Defined.

(** ** The standard deviation and the median (lines 29, 33, 80, 87, 119, 125) *)

(** Rounding keeps the sign it is given. *)
Lemma binary_round_aux_sign sx mx ex lx :
  match binary_round_aux prec emax sx mx ex lx with
  | S754_zero s | S754_infinity s | S754_finite s _ _ => s = sx
  | S754_nan => True
  end.
Proof.
  unfold binary_round_aux.
  destruct (shr_fexp prec emax mx ex lx) as [mrs' e'].
  destruct (shr_fexp prec emax _ e' loc_Exact) as [mrs'' e''].
  destruct (shr_m mrs''); [reflexivity | | exact I].
  destruct (e'' <=? emax - prec); reflexivity.
Qed.

(** X13: the standard deviation the script prints is never negative, on
    binary64 and whatever the column holds: it is NaN, a zero or above zero
    ([std < 0] is false).  The square root gives NaN for a negative
    variance, and rounding keeps the sign of what it rounds. *)
Theorem std_never_negative (xs : list float) : (std xs <? 0)%float = false.
Proof.
  unfold std. cbn [f_sqrt float_arith].
  generalize (nanvar 1 xs). intros v.
  rewrite ltb_spec, sqrt_spec. change (Prim2SF 0) with (S754_zero false).
  unfold SF64sqrt. destruct (Prim2SF v) as [s|[]| |[] m e]; try reflexivity.
  cbn [SFsqrt]. destruct (SFsqrt_core_binary prec emax (Z.pos m) e) as [[mz ez] lz].
  pose proof (binary_round_aux_sign false mz ez lz) as Hs.
  destruct (binary_round_aux prec emax false mz ez lz); try reflexivity;
    subst; reflexivity.
Qed.

Section Median.
Context {F : Type} `{Arith F}.

Lemma insert_sorted_perm (x : F) (l : list F) : insert_sorted x l ≡ₚ x :: l.
Proof.
  induction l as [|y l IH]; cbn [insert_sorted]; [reflexivity|].
  destruct (f_ltb y x); [|reflexivity].
  rewrite IH. apply perm_swap.
Qed.

Lemma sort_values_perm (xs : list F) : sort_values xs ≡ₚ xs.
Proof.
  induction xs as [|x xs IH]; [reflexivity|].
  cbn [sort_values fold_right]. fold (sort_values xs).
  now rewrite insert_sorted_perm, IH.
Qed.

(** X17: the median is made of rows of the column, for either arithmetic.
    The sorted values are a rearrangement of the rows that are not NaN; with
    none the median is NaN; for an odd number of them the median is one of
    these rows; for an even number it is the sum of two of these rows
    divided by 2 (a sum that binary64 may round, or overflow). *)
Theorem median_is_made_of_rows (xs : list F) :
  sort_values (dropna xs) ≡ₚ dropna xs /\
  (dropna xs = [] -> median xs = f_nan) /\
  (Nat.odd (length (dropna xs)) = true -> median xs ∈ dropna xs) /\
  (dropna xs <> [] -> Nat.odd (length (dropna xs)) = false ->
   exists a b, a ∈ dropna xs /\ b ∈ dropna xs /\
     median xs = f_div (f_add a b) (f_of_Z 2)).
Proof.
  pose proof (sort_values_perm (dropna xs)) as Hp.
  pose proof (Permutation_length Hp) as Hl.
  assert (Hnth : forall i, (i < length (dropna xs))%nat ->
                   nth i (sort_values (dropna xs)) f_nan ∈ dropna xs).
  { intros i Hi. apply list_elem_of_In, (Permutation_in _ Hp), nth_In. lia. }
  split; [exact Hp|]. unfold median. rewrite Hl.
  split; [intros ->; reflexivity|].
  destruct (length (dropna xs)) as [|n] eqn:En.
  { split; [discriminate|]. intros Hne. destruct (dropna xs); [congruence | discriminate]. }
  split.
  - intros ->. apply Hnth. apply Nat.div_lt; lia.
  - intros _ ->. eexists _, _. split; [|split; [|reflexivity]]; apply Hnth.
    + pose proof (Nat.div_lt (S n) 2 ltac:(lia) ltac:(lia)). lia.
    + apply Nat.div_lt; lia.
Qed.
End Median.

Lemma median_is_made_of_rows_witness :
  median [3; 1; 2]%float ∈ dropna [3; 1; 2]%float /\ median [3; 1; 2]%float = 2%float.
Proof.
  split; [|vm_compute; reflexivity].
  apply (median_is_made_of_rows [3; 1; 2]%float). vm_compute. reflexivity.
Defined.

(** ** The printed share (lines 122-123) *)

(** Above a positive normal number [mb * 2^eb] the next binary64 number is
    [2^eb] further. *)
Lemma normal_above (x b : float) mb eb :
  normal x -> Prim2SF b = S754_finite false mb eb ->
  2 ^ 52 <= Z.pos mb < 2 ^ 53 ->
  (float_to_R b < float_to_R x)%R ->
  (float_to_R b + pow2 eb <= float_to_R x)%R.
Proof.
  intros (s & m & e & E & Hm) Eb Hmb Hlt.
  rewrite (float_to_R_finite _ _ _ _ E), (float_to_R_finite _ _ _ _ Eb) in *.
  pose proof (mantissa_pos m e) as Hx. pose proof (mantissa_pos mb eb) as Hb.
  destruct s; cbn [sgn] in *; [lra|]. rewrite !Rmult_1_l in *.
  pose proof (mantissa_R m 53 ltac:(lia) Hm) as [Hm1 Hm2].
  pose proof (mantissa_R mb 53 ltac:(lia) Hmb) as [Hb1 Hb2].
  change (53 - 1) with 52 in *.
  pose proof (pow2_pos e) as Hpe. pose proof (pow2_pos eb) as Hpb.
  assert (E53 : pow2 53 = (2 * pow2 52)%R)
    by (change 53 with (1 + 52); rewrite pow2_add, pow2_1; reflexivity).
  pose proof (pow2_pos 52) as H52.
  destruct (Z_lt_le_dec e eb) as [Hlt'|Hge].
  - exfalso. pose proof (pow2_le (e + 1) eb ltac:(lia)) as Hle.
    rewrite pow2_add, pow2_1 in Hle. nra.
  - destruct (Z.eq_dec e eb) as [->|Hne].
    + assert (Hmm : Z.pos mb < Z.pos m).
      { apply lt_IZR. apply Rmult_lt_reg_r with (pow2 eb); lra. }
      assert (Hmm' : (IZR (Z.pos mb) + 1 <= IZR (Z.pos m))%R).
      { rewrite <- (plus_IZR _ 1). apply IZR_le. lia. }
      nra.
    + pose proof (pow2_le (eb + 1) e ltac:(lia)) as Hle.
      rewrite pow2_add, pow2_1 in Hle.
      assert (Hb3 : (IZR (Z.pos mb) + 1 <= pow2 53)%R).
      { rewrite (pow2_IZR 53), <- (plus_IZR _ 1) by lia. apply IZR_le. lia. }
      assert (A : ((IZR (Z.pos mb) + 1) * pow2 eb <= pow2 53 * pow2 eb)%R)
        by (apply Rmult_le_compat_r; lra).
      assert (B : (pow2 52 * pow2 e <= IZR (Z.pos m) * pow2 e)%R)
        by (apply Rmult_le_compat_r; lra).
      assert (C : (pow2 52 * (pow2 eb * 2) <= pow2 52 * pow2 e)%R)
        by (apply Rmult_le_compat_l; lra).
      rewrite E53 in A. lra.
Qed.

(** Rounding does not step over a binary64 number: a result within [2^-53]
    of an exact value at most [b] is at most [b]. *)
Lemma round_le_float (x b : float) (v : R) mb eb :
  normal x -> Prim2SF b = S754_finite false mb eb ->
  2 ^ 52 <= Z.pos mb < 2 ^ 53 ->
  (0 < v <= float_to_R b)%R ->
  (Rabs (float_to_R x - v) <= / 2 ^ 53 * v)%R ->
  (float_to_R x <= float_to_R b)%R.
Proof.
  intros Hn Eb Hmb Hv Herr.
  destruct (Rle_lt_dec (float_to_R x) (float_to_R b)) as [|Hlt]; [assumption|].
  pose proof (normal_above x b mb eb Hn Eb Hmb Hlt) as Hab.
  apply Rabs_le_inv in Herr.
  rewrite (float_to_R_finite _ _ _ _ Eb) in *. cbn [sgn] in *.
  rewrite !Rmult_1_l in *.
  pose proof (mantissa_R mb 53 ltac:(lia) Hmb) as [_ Hb2].
  pose proof (pow2_pos eb) as Hpb.
  assert (E53 : (pow2 53 = 2 ^ 53)%R).
  { rewrite (pow2_IZR 53) by lia. change (2 ^ 53) with 9007199254740992. lra. }
  rewrite E53 in Hb2.
  assert (Hb3 : (/ 2 ^ 53 * (IZR (Z.pos mb) * pow2 eb) < pow2 eb)%R).
  { assert (K : (/ 2 ^ 53 * IZR (Z.pos mb) < 1)%R).
    { apply Rmult_lt_reg_l with (2 ^ 53)%R; [lra|].
      rewrite <- Rmult_assoc, Rinv_r by lra. lra. }
    apply Rmult_lt_compat_r with (r := pow2 eb) in K; [|exact Hpb]. lra. }
  nra.
Qed.

(** X22: the share of rows above a threshold that the script prints is
    NaN for a column without rows and, for a column of [N] rows,
    [1 <= N < 2^53], a finite binary64 number between 0 and 100: the two
    roundings never take it above 100. *)
Theorem percentage_range (thr : float) (xs : list float) :
  (xs = [] -> percentage (gt_mask thr xs) = nan) /\
  ((1 <= length xs)%nat -> Z.of_nat (length xs) < 2 ^ 53 ->
   is_finite (percentage (gt_mask thr xs)) = true /\
   (0 <= float_to_R (percentage (gt_mask thr xs)) <= 100)%R).
Proof.
  split; [intros ->; vm_compute; reflexivity|].
  intros H1 HN. set (mask := gt_mask thr xs).
  assert (Hlen : Z.of_nat (length mask) = Z.of_nat (length xs))
    by (unfold mask, gt_mask; now rewrite length_map).
  pose proof (bool_sum_bounds mask) as [Hc0 HcN].
  destruct (Z.eq_dec (bool_sum mask) 0) as [E0|Hne].
  - destruct (percentage_none mask E0 ltac:(lia)) as (_ & Ep & _).
    split; [unfold is_finite; now rewrite Ep|].
    rewrite (float_to_R_zero _ _ Ep). lra.
  - destruct (percentage_some mask ltac:(lia) ltac:(lia))
      as (Hnm & Hnp & _ & Hm & Hp & _).
    split; [now apply normal_finite|].
    set (w := (IZR (bool_sum mask) / IZR (Z.of_nat (length mask)))%R) in *.
    assert (HN' : (0 < IZR (Z.of_nat (length mask)))%R) by (apply IZR_lt; lia).
    assert (Hw : (0 < w <= 1)%R).
    { unfold w. split.
      - apply Rdiv_lt_0_compat; [apply IZR_lt; lia | exact HN'].
      - apply Rdiv_le_l; [exact HN'|]. rewrite Rmult_1_l. apply IZR_le. lia. }
    assert (E1 : float_to_R 1%float = 1%R).
    { change 1%float with (float_of_Z 1). apply float_of_Z_normal. lia. }
    assert (E100 : float_to_R (float_of_Z 100) = 100%R)
      by (apply float_of_Z_normal; lia).
    assert (Hmean : (float_to_R (bool_mean mask) <= 1)%R).
    { rewrite <- E1.
      apply (round_le_float _ 1%float w 4503599627370496 (-52) Hnm eq_refl
               ltac:(lia)); [rewrite E1; lra | exact Hm]. }
    pose proof (Rabs_le_inv _ _ Hm) as Hm'.
    assert (Hpos : (0 < float_to_R (bool_mean mask))%R) by lra.
    assert (Hp100 : (float_to_R (percentage mask) <= 100)%R).
    { rewrite <- E100.
      apply (round_le_float _ (float_of_Z 100) (float_to_R (bool_mean mask) * 100)
               7036874417766400 (-46) Hnp eq_refl ltac:(lia));
        [rewrite E100; lra | exact Hp]. }
    pose proof (Rabs_le_inv _ _ Hp) as Hp'. lra.
Qed.

Lemma percentage_range_witness :
  is_finite (percentage (gt_mask 1.0%float ex_speedup)) = true /\
  (0 <= float_to_R (percentage (gt_mask 1.0%float ex_speedup)) <= 100)%R.
Proof.
  apply (proj2 (percentage_range 1.0%float ex_speedup)).
  - cbn [ex_speedup length]. lia.
  - reflexivity.
Defined.
